(** * hachiblog: NBA statistics analyzer ([nba_stats.py])

    A shallow embedding of the class [NBAStatsAnalyzer] and of the fragment
    of the Python runtime its methods rely on, with [main], followed by
    their properties.

    Modelling choices.
    - A Python [dict] with string keys is a [gmap string _]; subscription
      [d[k]] raises [KeyError] when the key is absent.
    - The statistics of a season-average record are JSON numbers.  They are
      taken as exact rationals ([Q]), the "real numbers" of the data model;
      the rounding of binary64 arithmetic is outside the model.  Python's
      true division is kept partial: it raises [ZeroDivisionError] on a zero
      divisor.
    - Exceptions are values of [exn]; a method returns [Ok v] or [Raise e].
    - Two properties of [calculate_advanced_stats] depend on what the
      rationals leave out, and are stated on finer embeddings of the same
      method: [Numbers] tells an [int] from a [float], with the
      [OverflowError] of an [int] too large for a [float]; [Objects] keeps
      the dictionaries and the analyzers in a heap, with references to
      them.
    - The HTTP library is an oracle [requests_get] given to the methods that
      call it.
    - The standard output is the list of the events written on it, and the
      standard input the list of the lines still to be read.  The
      formatting done by Python and pandas on floating-point numbers
      ([round], [str], [format], [DataFrame.to_string]) is supplied by the
      environment, like the network. *)

From Stdlib Require Import QArith Qabs Qround Lqa Ascii String.
From stdpp Require Import gmap strings pretty.

Local Open Scope Q_scope.
Local Open Scope string_scope.

(** ** The fragment of the Python runtime used by the module *)

Module Py.

(** The exception classes that occur in the module. *)
Inductive exn_class : Set :=
| KeyErrorClass
| ZeroDivisionErrorClass
| RequestExceptionClass
| ExceptionClass
| OverflowErrorClass.

(** Exception objects.  [Exception msg] is an instance of the base class
    itself, built by [Exception("...")]. *)
Inductive exn : Type :=
| KeyError (key : string)
| ZeroDivisionError
| RequestException (msg : string)
| Exception (msg : string)
| OverflowError (msg : string).

(** [type(e)] *)
Definition class_of (e : exn) : exn_class :=
  match e with
  | KeyError _ => KeyErrorClass
  | ZeroDivisionError => ZeroDivisionErrorClass
  | RequestException _ => RequestExceptionClass
  | Exception _ => ExceptionClass
  | OverflowError _ => OverflowErrorClass
  end.

(** Outcome of evaluating an expression or running a block. *)
Inductive result (A : Type) : Type :=
| Ok (a : A)
| Raise (e : exn).
Arguments Ok {A} a.
Arguments Raise {A} e.

Definition bind {A B : Type} (f : A -> result B) (m : result A) : result B :=
  match m with
  | Ok a => f a
  | Raise e => Raise e
  end.

#[export] Instance result_ret : MRet result := fun _ a => Ok a.
#[export] Instance result_bind : MBind result := fun _ _ f m => bind f m.

(** [try: body  except <clauses>]: [handler e] is [Some r] when a clause
    matches [e] and its block has outcome [r], and [None] when no clause
    matches, in which case [e] propagates. *)
Definition try_except {A : Type} (body : result A)
    (handler : exn -> option (result A)) : result A :=
  match body with
  | Ok a => Ok a
  | Raise e =>
      match handler e with
      | Some r => r
      | None => Raise e
      end
  end.

(** [d[k]] *)
Definition getitem {V : Type} (d : gmap string V) (k : string) : result V :=
  match d !! k with
  | Some v => Ok v
  | None => Raise (KeyError k)
  end.

(** [x > y] on numbers *)
Definition gt (x y : Q) : bool := negb (Qle_bool x y).

(** [x / y] on numbers *)
Definition truediv (x y : Q) : result Q :=
  if Qeq_bool y 0 then Raise ZeroDivisionError else Ok (x / y).

(** [a and b] in a boolean context: [b] is evaluated only when [a] is
    true. *)
Definition and_ (a b : result bool) : result bool :=
  c ← a; if c : bool then b else mret false.

(** [repr(s)] for a [str] without quotes, backslashes or non-printable
    characters, which is what every key of the records is. *)
Definition repr (s : string) : string := "'" ++ s ++ "'".

(** [str(e)]: a [KeyError] prints the [repr] of its key. *)
Definition str (e : exn) : string :=
  match e with
  | KeyError k => repr k
  | ZeroDivisionError => "division by zero"
  | RequestException msg => msg
  | Exception msg => msg
  | OverflowError msg => msg
  end.

End Py.
Import Py.

Notation "d .[ k ]" := (getitem d k) (at level 1, format "d .[ k ]").

(** ** The class [NBAStatsAnalyzer] *)

(** The attributes set by [__init__]. *)
Record NBAStatsAnalyzer : Type := {
  base_url : string;
  headers : gmap string string;
  current_season : Z
}.

(** [NBAStatsAnalyzer(api_key)]; [year] is [datetime.now().year]. *)
Definition __init__ (api_key : string) (year : Z) : NBAStatsAnalyzer :=
  {| base_url := "https://www.balldontlie.io/api/v1";
     headers := {[ "Authorization" := "Bearer " ++ api_key ]};
     current_season := year |}.

(** The handler of [except KeyError as e] in [calculate_advanced_stats]. *)
Definition except_KeyError {A : Type} (e : exn) : option (result A) :=
  match e with
  | KeyError _ => Some (Raise (Exception ("Missing required statistics: " ++ str e)))
  | _ => None
  end.

Definition calculate_advanced_stats (self : NBAStatsAnalyzer)
    (basic_stats : gmap string Q) : result (gmap string Q) :=
  try_except
    (let advanced_stats : gmap string Q := ∅ in
     (* True Shooting Percentage (TS%) *)
     c ← and_ (fga ← basic_stats.["fga"]; mret (gt fga 0))
              (fta ← basic_stats.["fta"]; mret (gt fta 0));
     advanced_stats ←
       (if c : bool then
          pts ← basic_stats.["pts"];
          fga ← basic_stats.["fga"];
          fta ← basic_stats.["fta"];
          q ← truediv pts (2 * (fga + 0.44 * fta));
          mret (<["ts_pct" := q * 100]> advanced_stats)
        else mret (<["ts_pct" := 0]> advanced_stats));
     (* Usage Rate (estimated) *)
     min ← basic_stats.["min"];
     advanced_stats ←
       (if gt min 0 then
          fga ← basic_stats.["fga"];
          fta ← basic_stats.["fta"];
          turnover ← basic_stats.["turnover"];
          min ← basic_stats.["min"];
          q ← truediv (fga + 0.44 * fta + turnover) min;
          mret (<["usage_rate" := q * 100]> advanced_stats)
        else mret (<["usage_rate" := 0]> advanced_stats));
     (* Assist to Turnover Ratio *)
     turnover ← basic_stats.["turnover"];
     advanced_stats ←
       (if gt turnover 0 then
          ast ← basic_stats.["ast"];
          turnover ← basic_stats.["turnover"];
          q ← truediv ast turnover;
          mret (<["ast_to_ratio" := q]> advanced_stats)
        else
          ast ← basic_stats.["ast"];
          mret (<["ast_to_ratio" := ast]> advanced_stats));
     (* Points per Shot Attempt *)
     fga ← basic_stats.["fga"];
     advanced_stats ←
       (if gt fga 0 then
          pts ← basic_stats.["pts"];
          fga ← basic_stats.["fga"];
          q ← truediv pts fga;
          mret (<["pts_per_shot" := q]> advanced_stats)
        else mret (<["pts_per_shot" := 0]> advanced_stats));
     mret advanced_stats)
    except_KeyError.

(** ** The calculator on the numbers of Python *)

(** The same method with the two kinds of numbers a record can hold, where
    the outcome depends on the kind: an [int] of any size, and a [float],
    still taken as an exact rational.  An [int] that meets a [float] in an
    operation is converted first, which fails when it is too large. *)
Module Numbers.

Inductive number : Type :=
| Int (n : Z)
| Float (x : Q).

(** The value of a number. *)
Definition value (v : number) : Q :=
  match v with
  | Int n => inject_Z n
  | Float x => x
  end.

(** The integers from this bound on round to no finite [float]: it lies
    half-way between the largest [float], [2^1024 - 2^971], and
    [2^1024]. *)
Definition float_limit : Z := (2 ^ 1024 - 2 ^ 970)%Z.

(** The number is a [float], or an [int] that converts to one. *)
Definition fits (v : number) : bool :=
  match v with
  | Int n => (Z.abs n <? float_limit)%Z
  | Float _ => true
  end.

(** The conversion of an operand in arithmetic with a [float]. *)
Definition as_float (v : number) : result Q :=
  match v with
  | Float x => Ok x
  | Int n =>
      if (Z.abs n <? float_limit)%Z then Ok (inject_Z n)
      else Raise (OverflowError "int too large to convert to float")
  end.

(** [x > y]: integers and floats are compared by value. *)
Definition gt (x y : number) : bool := Py.gt (value x) (value y).

(** [x + y] *)
Definition add (x y : number) : result number :=
  match x, y with
  | Int n, Int m => Ok (Int (n + m))
  | _, _ => a ← as_float x; b ← as_float y; mret (Float (a + b))
  end.

(** [x * y] *)
Definition mul (x y : number) : result number :=
  match x, y with
  | Int n, Int m => Ok (Int (n * m))
  | _, _ => a ← as_float x; b ← as_float y; mret (Float (a * b))
  end.

(** [x / y]: the quotient of two integers is computed from the integers
    themselves, and fails when it is too large for a [float]. *)
Definition truediv (x y : number) : result number :=
  match x, y with
  | Int n, Int m =>
      if (m =? 0)%Z then Raise ZeroDivisionError
      else if Qle_bool (inject_Z float_limit)
                (Qabs (inject_Z n / inject_Z m))
      then Raise (OverflowError
                    "integer division result too large for a float")
      else Ok (Float (inject_Z n / inject_Z m))
  | _, _ =>
      a ← as_float x; b ← as_float y;
      if Qeq_bool b 0 then Raise ZeroDivisionError else Ok (Float (a / b))
  end.

(** The operands are evaluated from left to right, and an operation is
    done as soon as its operands are there: in the usage rate,
    [basic_stats['turnover']] is subscripted after the first sum. *)
Definition calculate_advanced_stats (self : NBAStatsAnalyzer)
    (basic_stats : gmap string number) : result (gmap string number) :=
  try_except
    (let advanced_stats : gmap string number := ∅ in
     (* True Shooting Percentage (TS%) *)
     c ← and_ (fga ← basic_stats.["fga"]; mret (gt fga (Int 0)))
              (fta ← basic_stats.["fta"]; mret (gt fta (Int 0)));
     advanced_stats ←
       (if c : bool then
          pts ← basic_stats.["pts"];
          fga ← basic_stats.["fga"];
          fta ← basic_stats.["fta"];
          x ← mul (Float 0.44) fta;
          x ← add fga x;
          x ← mul (Int 2) x;
          x ← truediv pts x;
          x ← mul x (Int 100);
          mret (<["ts_pct" := x]> advanced_stats)
        else mret (<["ts_pct" := Int 0]> advanced_stats));
     (* Usage Rate (estimated) *)
     min ← basic_stats.["min"];
     advanced_stats ←
       (if gt min (Int 0) then
          fga ← basic_stats.["fga"];
          fta ← basic_stats.["fta"];
          x ← mul (Float 0.44) fta;
          x ← add fga x;
          turnover ← basic_stats.["turnover"];
          x ← add x turnover;
          min ← basic_stats.["min"];
          x ← truediv x min;
          x ← mul x (Int 100);
          mret (<["usage_rate" := x]> advanced_stats)
        else mret (<["usage_rate" := Int 0]> advanced_stats));
     (* Assist to Turnover Ratio *)
     turnover ← basic_stats.["turnover"];
     advanced_stats ←
       (if gt turnover (Int 0) then
          ast ← basic_stats.["ast"];
          turnover ← basic_stats.["turnover"];
          x ← truediv ast turnover;
          mret (<["ast_to_ratio" := x]> advanced_stats)
        else
          ast ← basic_stats.["ast"];
          mret (<["ast_to_ratio" := ast]> advanced_stats));
     (* Points per Shot Attempt *)
     fga ← basic_stats.["fga"];
     advanced_stats ←
       (if gt fga (Int 0) then
          pts ← basic_stats.["pts"];
          fga ← basic_stats.["fga"];
          x ← truediv pts fga;
          mret (<["pts_per_shot" := x]> advanced_stats)
        else mret (<["pts_per_shot" := Int 0]> advanced_stats));
     mret advanced_stats)
    except_KeyError.

(** An operation on [x] and [y] one of which is a [float] gives the
    [float] [q], or overflows on an operand that does not fit. *)
Definition arith_outcome (r : result number) (q : Q) (x y : number) : Prop :=
  r = Ok (Float q) \/
  (exists msg, r = Raise (OverflowError msg) /\
     (fits x = false \/ fits y = false)).

(** Every field the method subscripts that the record holds is a [float]
    or an [int] within the range of [float]. *)
Definition fits_float (b : gmap string number) : bool :=
  forallb (fun k => match b !! k with
                    | Some v => fits v
                    | None => true
                    end)
    ["fga"; "fta"; "pts"; "min"; "turnover"; "ast"].

End Numbers.

(** ** The calculator on the objects of the interpreter *)

(** The same method with the objects it works on: the dictionaries and
    the analyzers live in a heap, the method receives references to
    [self] and to [basic_stats], creates the dictionary [advanced_stats],
    assigns its entries in place and returns a reference to it. *)
Module Objects.

Record heap : Type := Heap {
  dicts : gmap positive (gmap string Q);
  analyzers : gmap positive NBAStatsAnalyzer
}.

(** A block of statements: it starts on a heap and gives a value or an
    exception, and the heap it leaves. *)
Record method (A : Type) : Type := Method {
  exec : heap -> result A * heap
}.
Arguments Method {A} _.
Arguments exec {A} _ _.

#[export] Instance method_ret : MRet method :=
  fun _ a => Method (fun h => (Ok a, h)).

#[export] Instance method_bind : MBind method := fun _ _ f m =>
  Method (fun h =>
            match exec m h with
            | (Ok a, h) => exec (f a) h
            | (Raise e, h) => (Raise e, h)
            end).

(** An expression without effect on the heap. *)
Definition pure {A : Type} (r : result A) : method A :=
  Method (fun h => (r, h)).

(** [{}]: a new, empty dictionary. *)
Definition new_dict : method positive :=
  Method (fun h =>
            let r := fresh (dom (dicts h)) in
            (Ok r, {| dicts := <[r := ∅]> (dicts h);
                      analyzers := analyzers h |})).

(** [d[k]] *)
Definition subscript (d : positive) (k : string) : method Q :=
  Method (fun h => (getitem (dicts h !!! d) k, h)).

(** [d[k] = v] *)
Definition store_subscript (d : positive) (k : string) (v : Q)
    : method unit :=
  Method (fun h =>
            (Ok tt, {| dicts := <[d := <[k := v]> (dicts h !!! d)]> (dicts h);
                       analyzers := analyzers h |})).

(** [a and b] *)
Definition and_ (a b : method bool) : method bool :=
  c ← a; if c : bool then b else mret false.

(** [try: body  except KeyError as e: raise Exception(...)] *)
Definition try_except_KeyError {A : Type} (body : method A) : method A :=
  Method (fun h =>
            match exec body h with
            | (Ok a, h) => (Ok a, h)
            | (Raise e, h) =>
                match except_KeyError e with
                | Some r => (r, h)
                | None => (Raise e, h)
                end
            end).

Definition calculate_advanced_stats (self basic_stats : positive)
    : method positive :=
  try_except_KeyError
    (advanced_stats ← new_dict;
     (* True Shooting Percentage (TS%) *)
     c ← and_ (fga ← subscript basic_stats "fga"; mret (gt fga 0))
              (fta ← subscript basic_stats "fta"; mret (gt fta 0));
     (if c : bool then
        pts ← subscript basic_stats "pts";
        fga ← subscript basic_stats "fga";
        fta ← subscript basic_stats "fta";
        q ← pure (truediv pts (2 * (fga + 0.44 * fta)));
        store_subscript advanced_stats "ts_pct" (q * 100)
      else store_subscript advanced_stats "ts_pct" 0);;
     (* Usage Rate (estimated) *)
     min ← subscript basic_stats "min";
     (if gt min 0 then
        fga ← subscript basic_stats "fga";
        fta ← subscript basic_stats "fta";
        turnover ← subscript basic_stats "turnover";
        min ← subscript basic_stats "min";
        q ← pure (truediv (fga + 0.44 * fta + turnover) min);
        store_subscript advanced_stats "usage_rate" (q * 100)
      else store_subscript advanced_stats "usage_rate" 0);;
     (* Assist to Turnover Ratio *)
     turnover ← subscript basic_stats "turnover";
     (if gt turnover 0 then
        ast ← subscript basic_stats "ast";
        turnover ← subscript basic_stats "turnover";
        q ← pure (truediv ast turnover);
        store_subscript advanced_stats "ast_to_ratio" q
      else
        ast ← subscript basic_stats "ast";
        store_subscript advanced_stats "ast_to_ratio" ast);;
     (* Points per Shot Attempt *)
     fga ← subscript basic_stats "fga";
     (if gt fga 0 then
        pts ← subscript basic_stats "pts";
        fga ← subscript basic_stats "fga";
        q ← pure (truediv pts fga);
        store_subscript advanced_stats "pts_per_shot" q
      else store_subscript advanced_stats "pts_per_shot" 0);;
     mret advanced_stats).

(** What a call leaves behind: the value returned, as the dictionary it
    refers to, or the exception. *)
Definition outcome (r : result positive * heap) : result (gmap string Q) :=
  match r with
  | (Ok d, h) => Ok (dicts h !!! d)
  | (Raise e, _) => Raise e
  end.

(** Every object of [h] is in [h'], unchanged. *)
Definition preserved (h h' : heap) : Prop :=
  (forall d obj, dicts h !! d = Some obj -> dicts h' !! d = Some obj) /\
  analyzers h' = analyzers h.

(** Two runs side by side, one on the record at [b1] with its new
    dictionary at [r1], the other on [b2] and [r2]: the two records have
    the same entries, and so have the two new dictionaries. *)
Definition alike (b1 r1 b2 r2 : positive) (h1 h2 : heap) : Prop :=
  dicts h1 !!! b1 = dicts h2 !!! b2 /\ dicts h1 !!! r1 = dicts h2 !!! r2.

(** From [h] to [h'] nothing changed but the dictionary at [r]. *)
Definition only_changes (r : positive) (h h' : heap) : Prop :=
  analyzers h' = analyzers h /\
  forall l, l <> r -> dicts h' !! l = dicts h !! l.

(** The blocks [m1] and [m2] do the same on heaps that are [alike]: each
    changes its new dictionary only, they leave the heaps [alike], and
    they end with values related by [post] or with the same exception. *)
Definition same_runs {A : Type} (b1 r1 b2 r2 : positive)
    (post : A -> A -> Prop) (m1 m2 : method A) : Prop :=
  forall h1 h2, alike b1 r1 b2 r2 h1 h2 ->
    only_changes r1 h1 (exec m1 h1).2 /\
    only_changes r2 h2 (exec m2 h2).2 /\
    alike b1 r1 b2 r2 (exec m1 h1).2 (exec m2 h2).2 /\
    match (exec m1 h1).1, (exec m2 h2).1 with
    | Ok a1, Ok a2 => post a1 a2
    | Raise e1, Raise e2 => e1 = e2
    | _, _ => False
    end.

End Objects.

(** ** The stats provider: [search_player] *)

Section StatsProvider.

(** The decoded value stored under a key of a response body. *)
Variable JSON : Type.

(** A [requests.Response]: its status code and the outcome of
    [response.json()]. *)
Record Response : Type := {
  status_code : Z;
  json : result (gmap string JSON)
}.

(** [requests.get(url, params=params, headers=headers)]: the answer of
    the network, or the exception the library raises. *)
Variable requests_get :
  string -> gmap string string -> gmap string string -> result Response.

(** The handler of [except requests.exceptions.RequestException as e]. *)
Definition except_RequestException {A : Type} (e : exn) : option (result A) :=
  match e with
  | RequestException _ => Some (Raise (Exception ("API request failed: " ++ str e)))
  | _ => None
  end.

Definition search_player (self : NBAStatsAnalyzer) (player_name : string)
    : result JSON :=
  let url := base_url self ++ "/players" in
  let params : gmap string string := {[ "search" := player_name ]} in
  try_except
    (response ← requests_get url params (headers self);
     if (status_code response =? 200)%Z then
       body ← json response; body.["data"]
     else if (status_code response =? 401)%Z then
       Raise (Exception "Invalid API key. Please check your API key.")
     else if (status_code response =? 429)%Z then
       Raise (Exception "Rate limit exceeded. Please try again later.")
     else
       Raise (Exception ("API request failed with status code "
                         ++ pretty (status_code response))))
    except_RequestException.

End StatsProvider.

Arguments status_code {JSON} _.
Arguments json {JSON} _.
Arguments search_player {JSON} requests_get self player_name.

(** ** The stats provider: [get_player_stats] *)

Section SeasonAverages.

(** The decoded value stored under a key of a response body. *)
Variable JSON : Type.

(** [requests.get] for a request whose parameters are integers. *)
Variable requests_get :
  string -> gmap string Z -> gmap string string -> result (Response JSON).

(** The handler of [except requests.exceptions.RequestException as e] in
    [get_player_stats]. *)
Definition except_RequestException_stats {A : Type} (e : exn)
    : option (result A) :=
  match e with
  | RequestException _ =>
      Some (Raise (Exception ("Failed to get player stats: " ++ str e)))
  | _ => None
  end.

Definition get_player_stats (self : NBAStatsAnalyzer) (player_id : Z)
    (season : option Z) : result JSON :=
  let season :=
    match season with
    | None => current_season self
    | Some season => season
    end in
  let url := base_url self ++ "/season_averages" in
  let params : gmap string Z :=
    {[ "player_ids[]" := player_id; "season" := season ]} in
  try_except
    (response ← requests_get url params (headers self);
     if (status_code response =? 200)%Z then
       body ← json response; body.["data"]
     else
       Raise (Exception ("Failed to get player stats. Status code: "
                         ++ pretty (status_code response))))
    except_RequestException_stats.

End SeasonAverages.

Arguments get_player_stats {JSON} requests_get self player_id season.

(** ** Strings of the runtime *)

Module PyStr.

(** The line feed written as [\n] in the source. *)
Definition LF : string := String "010"%char "".

Definition islower (c : ascii) : bool :=
  (97 <=? nat_of_ascii c)%nat && (nat_of_ascii c <=? 122)%nat.

Definition isupper (c : ascii) : bool :=
  (65 <=? nat_of_ascii c)%nat && (nat_of_ascii c <=? 90)%nat.

Definition toupper (c : ascii) : ascii :=
  if islower c then ascii_of_nat (nat_of_ascii c - 32) else c.

Definition tolower (c : ascii) : ascii :=
  if isupper c then ascii_of_nat (nat_of_ascii c + 32) else c.

(** [s.replace(old, new)] for one-character [old] and [new]. *)
Fixpoint replace (old new : ascii) (s : string) : string :=
  match s with
  | EmptyString => EmptyString
  | String c s =>
      String (if Ascii.eqb c old then new else c) (replace old new s)
  end.

(** [s.title()] on ASCII text: a letter that follows a letter is put in
    lower case, any other letter in upper case. *)
Fixpoint title_from (previous_is_cased : bool) (s : string) : string :=
  match s with
  | EmptyString => EmptyString
  | String c s =>
      String (if previous_is_cased then tolower c else toupper c)
             (title_from (islower c || isupper c) s)
  end.

Definition title (s : string) : string := title_from false s.

(** [str(x)] for [x] an [int] or [None], as an f-string prints it. *)
Definition str_optional_int (x : option Z) : string :=
  match x with
  | None => "None"
  | Some n => pretty n
  end.

End PyStr.

(** ** The console and the libraries *)

(** One player of a search answer, with the entries the program reads from
    it: [player['id']], [player['first_name']], [player['last_name']],
    [player['team']['full_name']] and [player['position']]. *)
Module Player.

Record t : Type := make {
  id : Z;
  first_name : string;
  last_name : string;
  team_full_name : string;
  position : string
}.

End Player.

(** A cell of the one-row table given to [pd.DataFrame]. *)
Inductive cell : Type :=
| Number (x : Q)
| Text (s : string).

(** What the program writes on the standard output: [Line s] for
    [print(s)] and [Ask s] for the prompt of [input(s)]. *)
Inductive event : Type :=
| Line (text : string)
| Ask (prompt : string).

(** The world around the analyzer: the two endpoints of the API as
    [requests.get] reaches them, the formatting functions of Python and
    pandas whose results depend on binary floating point, [str.strip],
    [int] (with the message of its [ValueError]) and the year of
    [datetime.now()]. *)
Record Env : Type := {
  players_api :
    string -> gmap string string -> gmap string string
    -> result (Response (list Player.t));
  season_averages_api :
    string -> gmap string Z -> gmap string string
    -> result (Response (list (gmap string Q)));
  round : Q -> Z -> Q;
  str_number : Q -> string;
  format_2f : Q -> string;
  to_string : list (string * cell) -> string;
  strip : string -> string;
  int : string -> string + Z;
  now_year : Z
}.

(** Computations that print: the events written so far are threaded
    through, and an exception keeps what was printed before it. *)
Record io (A : Type) : Type := Io {
  run : list event -> result A * list event
}.
Arguments Io {A} _.
Arguments run {A} _ _.

#[export] Instance io_ret : MRet io := fun _ a => Io (fun out => (Ok a, out)).

#[export] Instance io_bind : MBind io := fun _ _ f m =>
  Io (fun out =>
        match run m out with
        | (Ok a, out) => run (f a) out
        | (Raise e, out) => (Raise e, out)
        end).

(** [print(s)] *)
Definition print (s : string) : io unit :=
  Io (fun out => (Ok tt, (out ++ [Line s])%list)).

(** A computation that prints nothing. *)
Definition lift {A : Type} (r : result A) : io A :=
  Io (fun out => (r, out)).

(** [for x in l: body] *)
Fixpoint for_ {A : Type} (l : list A) (body : A -> io unit) : io unit :=
  match l with
  | [] => mret tt
  | x :: l => body x;; for_ l body
  end.

(** Printing only appends: a computation run after [out] was printed
    behaves as on an empty console, with [out] in front. *)
Definition appends {A : Type} (m : io A) : Prop :=
  forall out, run m out = (fst (run m []), (out ++ snd (run m []))%list).

(** ** [display_player_stats] *)

(** The columns of the table of season averages, in the order of the
    dictionary literal. *)
Definition table_fields : list string :=
  ["games_played"; "min"; "pts"; "reb"; "ast"; "stl"; "blk";
   "fg_pct"; "fg3_pct"; "ft_pct"].

(** The keys of the dictionary returned by [calculate_advanced_stats], in
    the order of their assignment there, which is the order in which
    [items()] yields them. *)
Definition advanced_order : list string :=
  ["ts_pct"; "usage_rate"; "ast_to_ratio"; "pts_per_shot"].

(** [d.items()] for a dictionary filled in the order [order]. *)
Definition items (order : list string) (d : gmap string Q)
    : list (string * Q) :=
  omap (fun k => (fun v => (k, v)) <$> d !! k) order.

Section Display.

Variable env : Env.

(** The dictionary literal given to [pd.DataFrame]. *)
Definition table_row (stats : gmap string Q) : result (list (string * cell)) :=
  games_played ← stats.["games_played"];
  min ← stats.["min"];
  pts ← stats.["pts"];
  reb ← stats.["reb"];
  ast ← stats.["ast"];
  stl ← stats.["stl"];
  blk ← stats.["blk"];
  fg_pct ← stats.["fg_pct"];
  fg3_pct ← stats.["fg3_pct"];
  ft_pct ← stats.["ft_pct"];
  mret [("Games Played", Number games_played);
        ("Minutes", Number (round env min 1));
        ("Points", Number (round env pts 1));
        ("Rebounds", Number (round env reb 1));
        ("Assists", Number (round env ast 1));
        ("Steals", Number (round env stl 1));
        ("Blocks", Number (round env blk 1));
        ("FG%", Text (str_number env (round env (fg_pct * 100) 1) ++ "%"));
        ("3P%", Text (str_number env (round env (fg3_pct * 100) 1) ++ "%"));
        ("FT%", Text (str_number env (round env (ft_pct * 100) 1) ++ "%"))].

(** The body of the loop over the players. *)
Definition display_player (self : NBAStatsAnalyzer) (season : option Z)
    (player : Player.t) : io unit :=
  let player_id := Player.id player in
  stats ← lift (get_player_stats (season_averages_api env) self player_id season);
  print (PyStr.LF ++ "Player: " ++ Player.first_name player ++ " "
         ++ Player.last_name player);;
  print ("Team: " ++ Player.team_full_name player);;
  print ("Position: " ++ Player.position player);;
  match stats with
  | stats :: _ =>
      stats_df ← lift (table_row stats);
      print (PyStr.LF ++ "Season Averages:");;
      print (to_string env stats_df);;
      (* Calculate and display advanced stats *)
      advanced_stats ← lift (calculate_advanced_stats self stats);
      print (PyStr.LF ++ "Advanced Statistics:");;
      for_ (items advanced_order advanced_stats)
        (fun '(stat, value) =>
           print (PyStr.title (PyStr.replace "_"%char " "%char stat) ++ ": "
                  ++ format_2f env value))
  | [] =>
      print ("No statistics found for season "
             ++ PyStr.str_optional_int season)
  end.

(** The block under [try] in [display_player_stats]. *)
Definition display_player_stats_try (self : NBAStatsAnalyzer)
    (player_name : string) (season : option Z) : io unit :=
  players ← lift (search_player (players_api env) self player_name);
  match players with
  | [] => print ("No players found matching '" ++ player_name ++ "'")
  | _ :: _ => for_ players (display_player self season)
  end.

(** [display_player_stats]: every exception of the block is caught by
    [except Exception as e] and printed; the method returns what is on the
    standard output afterwards. *)
Definition display_player_stats (self : NBAStatsAnalyzer)
    (player_name : string) (season : option Z) (out : list event)
    : list event :=
  match run (display_player_stats_try self player_name season) out with
  | (Ok _, out) => out
  | (Raise e, out) => (out ++ [Line ("Error: " ++ str e)])%list
  end.

(** ** [main] *)

(** The exceptions of [input] and [int]. *)
Inductive input_error : Type :=
| EOFError
| ValueError (msg : string).

Definition str_input_error (e : input_error) : string :=
  match e with
  | EOFError => "EOF when reading a line"
  | ValueError msg => msg
  end.

(** [int(season) if season else None] *)
Definition season_of (season : string) : string + option Z :=
  if String.eqb season "" then inr None
  else match int env season with
       | inl msg => inl msg
       | inr n => inr (Some n)
       end.

(** The loop [while True] of [main], run on the lines that remain on the
    standard input; [input] raises [EOFError] when none is left.  The
    result is [None] when the loop is left by [break]. *)
Fixpoint main_loop (analyzer : NBAStatsAnalyzer) (stdin : list string)
    (out : list event) : option input_error * list event :=
  let out := (out ++ [Line (PyStr.LF ++ "NBA Stats Analyzer");
                      Line "1. View Player Stats";
                      Line "2. Calculate Advanced Stats";
                      Line "3. Quit";
                      Ask (PyStr.LF ++ "Select an option (1-3): ")])%list in
  match stdin with
  | [] => (Some EOFError, out)
  | line :: stdin =>
      let choice := strip env line in
      if String.eqb choice "3" then (None, out)
      else
        let out := (out ++ [Ask "Enter player name: "])%list in
        match stdin with
        | [] => (Some EOFError, out)
        | line :: stdin =>
            let player_name := strip env line in
            if String.eqb choice "1" then
              let out :=
                (out ++ [Ask "Enter season year (press Enter for current season): "])%list in
              match stdin with
              | [] => (Some EOFError, out)
              | line :: stdin =>
                  match season_of (strip env line) with
                  | inl msg => (Some (ValueError msg), out)
                  | inr season =>
                      main_loop analyzer stdin
                        (display_player_stats analyzer player_name season out)
                  end
              end
            else if String.eqb choice "2" then
              main_loop analyzer stdin
                (display_player_stats analyzer player_name None out)
            else main_loop analyzer stdin out
        end
  end.

(** The values [choice] takes over the turns of the loop, on the same
    lines: the loop reads the choice of a turn, then (unless it leaves) a
    player name, then a season for the choice "1", and goes to the next
    turn unless [input] or [int] raised. *)
Fixpoint choices (stdin : list string) : list string :=
  match stdin with
  | [] => []
  | line :: stdin =>
      let choice := strip env line in
      choice ::
      (if String.eqb choice "3" then []
       else
         match stdin with
         | [] => []
         | _ :: stdin =>
             if String.eqb choice "1" then
               match stdin with
               | [] => []
               | line :: stdin =>
                   match season_of (strip env line) with
                   | inl _ => []
                   | inr _ => choices stdin
                   end
               end
             else choices stdin
         end)
  end.

(** [main], run on the lines of the standard input. *)
Definition main (stdin : list string) : list event :=
  let out := [Ask "Please enter your balldontlie API key: "] in
  match stdin with
  | [] => (out ++ [Line ("Error: " ++ str_input_error EOFError)])%list
  | line :: stdin =>
      let api_key := strip env line in
      let analyzer := __init__ api_key (now_year env) in
      match main_loop analyzer stdin out with
      | (None, out) => out
      | (Some e, out) => (out ++ [Line ("Error: " ++ str_input_error e)])%list
      end
  end.

End Display.

(** ** Records *)


(** The keys subscripted by [calculate_advanced_stats]. *)
Definition read_fields : list string :=
  ["fga"; "fta"; "pts"; "min"; "turnover"; "ast"].

(** The keys of the dictionary built by [calculate_advanced_stats]. *)
Definition advanced_fields : gset string :=
  {[ "ts_pct"; "usage_rate"; "ast_to_ratio"; "pts_per_shot" ]}.

(** The message carried by the exception raised for a missing key. *)
Definition missing_field_message (k : string) : string :=
  "Missing required statistics: '" ++ k ++ "'".


(** [b[k]] is present and positive. *)
Definition positive_at (b : gmap string Q) (k : string) : Prop :=
  exists x, b !! k = Some x /\ 0 < x.

(** A field that the run on [b] subscripts is absent from [b]: ["fga"],
    ["min"], ["turnover"] and ["ast"] are subscripted on every run,
    ["fta"] when [b["fga"] > 0] or [b["min"] > 0], and ["pts"] when
    [b["fga"] > 0]. *)
Definition reads_absent_field (b : gmap string Q) : Prop :=
  b !! "fga" = None \/ b !! "min" = None \/ b !! "turnover" = None \/
  b !! "ast" = None \/
  (b !! "fta" = None /\ (positive_at b "fga" \/ positive_at b "min")) \/
  (b !! "pts" = None /\ positive_at b "fga").

(** Two outcomes are exceptions of one and the same class, so that an
    [except] clause cannot tell them apart. *)
Definition same_exception_class {A : Type} (r1 r2 : result A) : Prop :=
  match r1, r2 with
  | Raise e1, Raise e2 => class_of e1 = class_of e2
  | _, _ => False
  end.

(** The three lines printed for a player before the statistics. *)
Definition player_header (player : Player.t) : list event :=
  [Line (PyStr.LF ++ "Player: " ++ Player.first_name player ++ " "
         ++ Player.last_name player);
   Line ("Team: " ++ Player.team_full_name player);
   Line ("Position: " ++ Player.position player)].

(** The menu printed at each turn of the loop of [main], with the prompt
    for the choice. *)
Definition menu : list event :=
  [Line (PyStr.LF ++ "NBA Stats Analyzer");
   Line "1. View Player Stats";
   Line "2. Calculate Advanced Stats";
   Line "3. Quit";
   Ask (PyStr.LF ++ "Select an option (1-3): ")].

(** ** Sample data *)

Module Sample.

Definition analyzer : NBAStatsAnalyzer := __init__ "secret" 2024.

(** A complete season-average record. *)
Definition season : gmap string Q :=
  list_to_map
    [("games_played", 70); ("min", 34.5); ("pts", 30); ("reb", 7.5);
     ("ast", 5); ("stl", 1.2); ("blk", 0.6); ("turnover", 2);
     ("fga", 20); ("fta", 10); ("fg_pct", 0.5); ("fg3_pct", 0.4);
     ("ft_pct", 0.8)].

(** The same entries, stored into an empty dictionary in another order. *)
Definition season_rebuilt : gmap string Q :=
  <["games_played" := 70]> (<["fg_pct" := 0.5]> (<["fg3_pct" := 0.4]>
  (<["ft_pct" := 0.8]> (<["fta" := 10]> (<["fga" := 20]>
  (<["turnover" := 2]> (<["blk" := 0.6]> (<["stl" := 1.2]>
  (<["ast" := 5]> (<["reb" := 7.5]> (<["pts" := 30]>
  (<["min" := 34.5]> ∅)))))))))))).

(** An analyzer created with another key in another year. *)
Definition other_analyzer : NBAStatsAnalyzer := __init__ "other" 2031.

(** The same record reduced to the six fields the calculator reads. *)
Definition season_core : gmap string Q :=
  list_to_map
    [("min", 34.5); ("pts", 30); ("ast", 5); ("turnover", 2);
     ("fga", 20); ("fta", 10)].

(** A record of a player who attempted no shot, from which ["pts"] is
    absent. *)
Definition bench_without_pts : gmap string Q :=
  list_to_map
    [("games_played", 10); ("min", 12); ("reb", 3); ("ast", 2);
     ("stl", 1); ("blk", 0); ("turnover", 1); ("fga", 0); ("fta", 0);
     ("fg_pct", 0); ("fg3_pct", 0); ("ft_pct", 0)].

(** What the calculator returns on [bench_without_pts]. *)
Definition bench_advanced : gmap string Q :=
  list_to_map
    [("ts_pct", 0); ("usage_rate", (0 + 0.44 * 0 + 1) / 12 * 100);
     ("ast_to_ratio", 2 / 1); ("pts_per_shot", 0)].

(** A record with the six fields the calculator reads, all of them
    integers, the points beyond the range of [float]. *)
Definition huge_points : gmap string Numbers.number :=
  list_to_map
    [("fga", Numbers.Int 1); ("fta", Numbers.Int 1);
     ("pts", Numbers.Int (10 ^ 400)); ("min", Numbers.Int 1);
     ("turnover", Numbers.Int 1); ("ast", Numbers.Int 1)].

(** The record [season] as the API sends it: whole numbers as [int]. *)
Definition season_numbers : gmap string Numbers.number :=
  list_to_map
    [("games_played", Numbers.Int 70); ("min", Numbers.Float 34.5);
     ("pts", Numbers.Int 30); ("reb", Numbers.Float 7.5);
     ("ast", Numbers.Int 5); ("stl", Numbers.Float 1.2);
     ("blk", Numbers.Float 0.6); ("turnover", Numbers.Int 2);
     ("fga", Numbers.Int 20); ("fta", Numbers.Int 10);
     ("fg_pct", Numbers.Float 0.5); ("fg3_pct", Numbers.Float 0.4);
     ("ft_pct", Numbers.Float 0.8)].

(** The same record reduced to the six fields the calculator reads. *)
Definition season_numbers_core : gmap string Numbers.number :=
  list_to_map
    [("min", Numbers.Float 34.5); ("pts", Numbers.Int 30);
     ("ast", Numbers.Int 5); ("turnover", Numbers.Int 2);
     ("fga", Numbers.Int 20); ("fta", Numbers.Int 10)].

(** Two heaps: in the first the record [season] is the dictionary 1 and
    the analyzer the object 2; in the second the same entries, stored in
    another order, are the dictionary 7, next to another record, and the
    analyzer, another one, is the object 4. *)
Definition heap_a : Objects.heap :=
  {| Objects.dicts := {[ 1%positive := season ]};
     Objects.analyzers := {[ 2%positive := analyzer ]} |}.

Definition heap_b : Objects.heap :=
  {| Objects.dicts :=
       {[ 3%positive := bench_without_pts; 7%positive := season_rebuilt ]};
     Objects.analyzers := {[ 4%positive := other_analyzer ]} |}.

(** Networks that answer every request in one way. *)
Definition answers (code : Z) (_ : string) (_ _ : gmap string string)
    : result (Response unit) :=
  Ok {| status_code := code; json := Ok ∅ |}.

Definition unreachable (_ : string) (_ _ : gmap string string)
    : result (Response unit) :=
  Raise (RequestException "Connection refused").

End Sample.

(** ** A sample world *)

Module Demo.

Definition lebron : Player.t :=
  Player.make 237 "LeBron" "James" "Los Angeles Lakers" "F".

Definition curry : Player.t :=
  Player.make 115 "Stephen" "Curry" "Golden State Warriors" "G".

(** Decimal rounding of an exact rational, ties to even. *)
Definition round_half_even (x : Q) (ndigits : Z) : Q :=
  let scale := inject_Z (10 ^ ndigits) in
  let y := x * scale in
  let f := Qfloor y in
  let r := y - inject_Z f in
  let n :=
    if Qle_bool r 0.5 && negb (Qeq_bool r 0.5) then f
    else if Qeq_bool r 0.5 && Z.even f then f
    else (f + 1)%Z in
  Qred (inject_Z n / scale).

(** A non-negative number with [ndigits] decimals, at least one. *)
Definition decimal (ndigits : Z) (x : Q) : string :=
  let scale := (10 ^ ndigits)%Z in
  let n := Qfloor (round_half_even x ndigits * inject_Z scale) in
  let frac := pretty (n mod scale)%Z in
  pretty (n / scale)%Z ++ "."
  ++ (if (String.length frac <? Z.to_nat ndigits)%nat then "0" else "")
  ++ frac.

Definition cell_text (c : cell) : string :=
  match c with
  | Number x => decimal 1 x
  | Text s => s
  end.

(** A table on two lines: the names of the columns, then the cells. *)
Definition two_lines (row : list (string * cell)) : string :=
  String.concat " " (map fst row) ++ PyStr.LF
  ++ String.concat " " (map (fun c => cell_text (snd c)) row).

(** Leading spaces removed. *)
Fixpoint lstrip (s : string) : string :=
  match s with
  | String " " s => lstrip s
  | _ => s
  end.

(** A string of decimal digits read as a number. *)
Fixpoint digits (acc : Z) (s : string) : option Z :=
  match s with
  | EmptyString => Some acc
  | String c s =>
      let d := (Z.of_nat (nat_of_ascii c) - 48)%Z in
      if (0 <=? d)%Z && (d <=? 9)%Z then digits (10 * acc + d)%Z s else None
  end.

Definition parse_int (s : string) : string + Z :=
  match digits 0 s with
  | Some n => inr n
  | None => inl ("invalid literal for int() with base 10: '" ++ s ++ "'")
  end.

(** An API that answers every search with [players], and the request for
    the season averages of the player 237 with [records]; for any other
    player it answers with status 500. *)
Definition env (players : list Player.t) (records : list (gmap string Q))
    : Env :=
  {| players_api := fun _ _ _ =>
       Ok {| status_code := 200; json := Ok {[ "data" := players ]} |};
     season_averages_api := fun _ params _ =>
       if decide (params !! "player_ids[]" = Some 237%Z)
       then Ok {| status_code := 200; json := Ok {[ "data" := records ]} |}
       else Ok {| status_code := 500; json := Ok ∅ |};
     round := round_half_even;
     str_number := decimal 1;
     format_2f := decimal 2;
     to_string := two_lines;
     strip := lstrip;
     int := parse_int;
     now_year := 2024 |}.

(** An API that is down. *)
Definition offline : Env :=
  {| players_api := fun _ _ _ => Raise (RequestException "Connection refused");
     season_averages_api := fun _ _ _ =>
       Raise (RequestException "Connection refused");
     round := round_half_even;
     str_number := decimal 1;
     format_2f := decimal 2;
     to_string := two_lines;
     strip := lstrip;
     int := parse_int;
     now_year := 2024 |}.

(** Two networks that give the same answer to the search for "LeBron" made
    with the key "secret", and different answers to every other request. *)
Definition search_net (elsewhere : Z) (url : string)
    (params headers : gmap string string) : result (Response unit) :=
  if decide (url = "https://www.balldontlie.io/api/v1/players"
             /\ params = {[ "search" := "LeBron" ]}
             /\ headers = {[ "Authorization" := "Bearer secret" ]})
  then Ok {| status_code := 200; json := Ok {[ "data" := tt ]} |}
  else Ok {| status_code := elsewhere; json := Ok ∅ |}.

(** Two networks that give the same answer to the request for the season
    2024 of the player 237, and different answers to every other
    request. *)
Definition averages_net (elsewhere : Z) (url : string)
    (params : gmap string Z) (headers : gmap string string)
    : result (Response unit) :=
  if decide (params = {[ "player_ids[]" := 237%Z; "season" := 2024%Z ]})
  then Ok {| status_code := 200; json := Ok {[ "data" := tt ]} |}
  else Ok {| status_code := elsewhere; json := Ok ∅ |}.

(** A record without shot attempts and turnovers. *)
Definition no_attempts : gmap string Q :=
  delete "fga" (delete "fta" (delete "turnover" Sample.season)).

(** The table row and the derived statistics of [Sample.season]. *)
Definition season_row : list (string * cell) :=
  [("Games Played", Number 70);
   ("Minutes", Number (round_half_even 34.5 1));
   ("Points", Number (round_half_even 30 1));
   ("Rebounds", Number (round_half_even 7.5 1));
   ("Assists", Number (round_half_even 5 1));
   ("Steals", Number (round_half_even 1.2 1));
   ("Blocks", Number (round_half_even 0.6 1));
   ("FG%", Text "50.0%"); ("3P%", Text "40.0%"); ("FT%", Text "80.0%")].

Definition season_advanced : gmap string Q :=
  list_to_map
    [("ts_pct", 30 / (2 * (20 + 0.44 * 10)) * 100);
     ("usage_rate", (20 + 0.44 * 10 + 2) / 34.5 * 100);
     ("ast_to_ratio", 5 / 2); ("pts_per_shot", 30 / 20)].

End Demo.

(** * Properties *)

(** ** Arithmetic of the runtime fragment *)

Lemma gt_0_true (x : Q) : gt x 0 = true <-> 0 < x.
Proof.
  unfold gt. rewrite negb_true_iff. split.
  - intros H. apply Qnot_le_lt. intros Hle.
    apply Qle_bool_iff in Hle. congruence.
  - intros H. destruct (Qle_bool x 0) eqn:E; [|reflexivity].
    apply Qle_bool_iff in E. lra.
Qed.

Lemma gt_0_false (x : Q) : gt x 0 = false <-> x <= 0.
Proof.
  unfold gt. rewrite negb_false_iff. apply Qle_bool_iff.
Qed.

Lemma truediv_nonzero (x y : Q) : ~ y == 0 -> truediv x y = Ok (x / y).
Proof.
  intros H. unfold truediv.
  destruct (Qeq_bool y 0) eqn:E; [|reflexivity].
  apply Qeq_bool_eq in E. contradiction.
Qed.

Lemma truediv_gt_0 (x y : Q) : gt y 0 = true -> truediv x y = Ok (x / y).
Proof.
  intros H. apply gt_0_true in H. apply truediv_nonzero. lra.
Qed.

(** The divisor of the true-shooting formula is not zero under its guard. *)
Lemma truediv_ts (pts fga fta : Q) :
  gt fga 0 = true -> gt fta 0 = true ->
  truediv pts (2 * (fga + 0.44 * fta)) = Ok (pts / (2 * (fga + 0.44 * fta))).
Proof.
  intros Ha Hb. apply gt_0_true in Ha, Hb. apply truediv_nonzero. lra.
Qed.

(** ** The outcome of [calculate_advanced_stats] on a record that holds the
    fields it reads *)

Ltac run_calculator :=
  unfold calculate_advanced_stats, and_, getitem;
  cbn [mbind mret result_bind result_ret bind try_except].

Lemma calculate_advanced_stats_run self (b : gmap string Q)
    (fga fta pts min turnover ast : Q) :
  b !! "fga" = Some fga -> b !! "fta" = Some fta -> b !! "pts" = Some pts ->
  b !! "min" = Some min -> b !! "turnover" = Some turnover ->
  b !! "ast" = Some ast ->
  calculate_advanced_stats self b =
  Ok (<["pts_per_shot" := if gt fga 0 then pts / fga else 0]>
      (<["ast_to_ratio" := if gt turnover 0 then ast / turnover else ast]>
       (<["usage_rate" :=
            if gt min 0 then (fga + 0.44 * fta + turnover) / min * 100 else 0]>
        (<["ts_pct" :=
             if gt fga 0 && gt fta 0
             then pts / (2 * (fga + 0.44 * fta)) * 100 else 0]> ∅)))).
Proof.
  intros Hfga Hfta Hpts Hmin Hto Hast. run_calculator.
  rewrite Hfga, Hfta, Hpts, Hmin, Hto, Hast.
  cbn [mbind mret result_bind result_ret bind try_except].
  destruct (gt fga 0) eqn:Efga, (gt fta 0) eqn:Efta, (gt min 0) eqn:Emin,
    (gt turnover 0) eqn:Eto;
    cbn [mbind mret result_bind result_ret bind try_except andb];
    rewrite ?truediv_ts, ?(truediv_gt_0 _ min), ?(truediv_gt_0 _ turnover),
      ?(truediv_gt_0 _ fga) by assumption;
    reflexivity.
Qed.

(** ** Failure analysis *)

Ltac step_calculator :=
  match goal with
  | |- context [match ?b !! ?k with _ => _ end] =>
      let H := fresh "Hk" in destruct (b !! k) eqn:H
  | |- context [if gt ?x 0 then _ else _] =>
      let H := fresh "Hgt" in destruct (gt x 0) eqn:H
  end;
  cbn [mbind mret result_bind result_ret bind try_except except_KeyError andb];
  rewrite ?truediv_ts, ?truediv_gt_0 by assumption;
  cbn [mbind mret result_bind result_ret bind try_except except_KeyError andb].

Ltac absent_key k :=
  exists k; split; [cbn; tauto | split; [assumption | reflexivity]].

(** Every run either returns a dictionary or raises the generic
    [Exception] whose message names a key that is absent from the record;
    in particular no [ZeroDivisionError] and no bare [KeyError] escapes. *)
Lemma calculate_advanced_stats_outcome self (b : gmap string Q) :
  (exists adv, calculate_advanced_stats self b = Ok adv) \/
  (exists k, In k read_fields /\ b !! k = None /\
     calculate_advanced_stats self b = Raise (Exception (missing_field_message k))).
Proof.
  run_calculator. repeat step_calculator;
    first [ left; eexists; reflexivity
          | right; first [ absent_key "fga" | absent_key "fta" | absent_key "pts"
                         | absent_key "min" | absent_key "turnover"
                         | absent_key "ast" ] ].
Qed.

Ltac gt_facts :=
  repeat match goal with
         | H : gt _ 0 = true |- _ => apply gt_0_true in H
         | H : gt _ 0 = false |- _ => apply gt_0_false in H
         end.

(** A run that returns found every field it subscripted. *)
Lemma calculate_advanced_stats_Ok_reads self (b : gmap string Q) adv :
  calculate_advanced_stats self b = Ok adv -> ~ reads_absent_field b.
Proof.
  intros Hok Habs. revert Hok. unfold reads_absent_field, positive_at in Habs.
  run_calculator. repeat step_calculator; try discriminate; intros _;
    gt_facts; destruct_or?; destruct_and?; destruct_or?;
    repeat match goal with H : exists _, _ |- _ => destruct H as (? & ? & ?) end;
    simplify_eq; lra.
Qed.

(** Conversely, a run that subscripts no absent field returns. *)
Lemma calculate_advanced_stats_total self (b : gmap string Q) :
  ~ reads_absent_field b -> exists adv, calculate_advanced_stats self b = Ok adv.
Proof.
  intros Hpres.
  destruct (calculate_advanced_stats_outcome self b)
    as [Hok | (k & _ & Hk & Hraise)]; [exact Hok | exfalso].
  apply Hpres. revert Hraise. unfold reads_absent_field, positive_at.
  run_calculator. repeat step_calculator; try discriminate; intros _;
    gt_facts; eauto 10.
Qed.

(** ** The calculator: failures *)




(** The example of the specification: with positive attempts on both
    counts, a record without ["pts"] is rejected with a message naming
    ['pts']. *)
Lemma calculate_advanced_stats_missing_pts self (b : gmap string Q) fga fta :
  b !! "fga" = Some fga -> b !! "fta" = Some fta -> 0 < fga -> 0 < fta ->
  b !! "pts" = None ->
  calculate_advanced_stats self b
  = Raise (Exception "Missing required statistics: 'pts'").
Proof.
  intros Hfga Hfta Ha Hb Hpts. apply gt_0_true in Ha, Hb.
  run_calculator. rewrite Hfga, Hfta.
  cbn [mbind mret result_bind result_ret bind].
  rewrite Ha, Hb, Hpts. reflexivity.
Qed.

(** ** The calculator: formulas *)

Ltac read_result :=
  repeat first [ rewrite lookup_insert_eq
               | rewrite lookup_insert_ne by discriminate ].









(** The example of the specification: five assists for two turnovers give
    a ratio of 2.5. *)
Lemma ast_to_ratio_example :
  exists adv r,
    calculate_advanced_stats Sample.analyzer Sample.season = Ok adv /\
    adv !! "ast_to_ratio" = Some r /\ r == 2.5.
Proof.
  eexists _, _. split; [reflexivity | split; reflexivity].
Qed.

(** ** The calculator: ranges *)





(** ** The calculator: purity *)

(** The method on the heap: two runs are followed side by side, statement
    by statement. *)
Section ObjectsProperties.

Import Objects.

Section SameRuns.

Variables b1 r1 b2 r2 : positive.
Hypothesis Hne1 : r1 <> b1.
Hypothesis Hne2 : r2 <> b2.

Lemma only_changes_refl r h : only_changes r h h.
Proof. now split. Qed.

Lemma only_changes_trans r h h' h'' :
  only_changes r h h' -> only_changes r h' h'' -> only_changes r h h''.
Proof.
  intros [Ha Hd] [Ha' Hd']. split; [congruence |].
  intros l Hl. rewrite Hd', Hd by exact Hl. reflexivity.
Qed.

Lemma same_ret {A : Type} (post : A -> A -> Prop) (a1 a2 : A) :
  post a1 a2 -> same_runs b1 r1 b2 r2 post (mret a1) (mret a2).
Proof.
  intros Hpost h1 h2 Halike. unfold mret, method_ret. cbn [exec fst snd].
  auto using only_changes_refl.
Qed.

Lemma same_pure {A : Type} (x : result A) :
  same_runs b1 r1 b2 r2 eq (pure x) (pure x).
Proof.
  intros h1 h2 Halike. unfold pure. cbn [exec fst snd].
  split; [apply only_changes_refl |].
  split; [apply only_changes_refl |].
  split; [exact Halike |]. now destruct x.
Qed.

Lemma same_bind {A B : Type} (post : B -> B -> Prop)
    (m1 m2 : method A) (f1 f2 : A -> method B) :
  same_runs b1 r1 b2 r2 eq m1 m2 ->
  (forall a, same_runs b1 r1 b2 r2 post (f1 a) (f2 a)) ->
  same_runs b1 r1 b2 r2 post (m1 ≫= f1) (m2 ≫= f2).
Proof.
  intros Hm Hf h1 h2 Halike.
  destruct (Hm h1 h2 Halike) as (Hc1 & Hc2 & Halike' & Hres).
  unfold mbind, method_bind. cbn [exec].
  destruct (exec m1 h1) as [[a1 | e1] h1'], (exec m2 h2) as [[a2 | e2] h2'];
    cbn [fst snd] in *; try contradiction.
  - subst a2.
    destruct (Hf a1 h1' h2' Halike') as (Hd1 & Hd2 & Halike'' & Hres').
    split; [exact (only_changes_trans _ _ _ _ Hc1 Hd1) |].
    split; [exact (only_changes_trans _ _ _ _ Hc2 Hd2) |].
    split; assumption.
  - repeat (split; [assumption |]). assumption.
Qed.

Lemma same_subscript (k : string) :
  same_runs b1 r1 b2 r2 eq (subscript b1 k) (subscript b2 k).
Proof.
  intros h1 h2 [Hb Hr]. unfold subscript. cbn [exec fst snd].
  split; [apply only_changes_refl |].
  split; [apply only_changes_refl |].
  split; [now split |].
  rewrite Hb. now destruct (getitem _ k).
Qed.

Lemma same_store_subscript (k : string) (v : Q) :
  same_runs b1 r1 b2 r2 eq (store_subscript r1 k v) (store_subscript r2 k v).
Proof.
  intros h1 h2 [Hb Hr]. unfold store_subscript.
  cbn [exec fst snd dicts analyzers].
  split; [split; [reflexivity |] |].
  { intros l Hl. cbn [dicts]. now rewrite lookup_insert_ne. }
  split; [split; [reflexivity |] |].
  { intros l Hl. cbn [dicts]. now rewrite lookup_insert_ne. }
  split; [split |]; cbn [dicts].
  - now rewrite !lookup_total_insert_ne.
  - now rewrite !lookup_total_insert_eq, Hr.
  - reflexivity.
Qed.

Lemma same_if {A : Type} (post : A -> A -> Prop) (c : bool)
    (m1 m2 n1 n2 : method A) :
  same_runs b1 r1 b2 r2 post m1 m2 -> same_runs b1 r1 b2 r2 post n1 n2 ->
  same_runs b1 r1 b2 r2 post (if c then m1 else n1) (if c then m2 else n2).
Proof. now destruct c. Qed.

Lemma same_and (x1 x2 y1 y2 : method bool) :
  same_runs b1 r1 b2 r2 eq x1 x2 -> same_runs b1 r1 b2 r2 eq y1 y2 ->
  same_runs b1 r1 b2 r2 eq (and_ x1 y1) (and_ x2 y2).
Proof.
  intros Hx Hy. unfold and_. apply same_bind; [exact Hx | intros c].
  apply same_if; [exact Hy | now apply same_ret].
Qed.

Lemma same_try {A : Type} (post : A -> A -> Prop) (m1 m2 : method A) :
  same_runs b1 r1 b2 r2 post m1 m2 ->
  same_runs b1 r1 b2 r2 post (try_except_KeyError m1) (try_except_KeyError m2).
Proof.
  intros Hm h1 h2 Halike.
  destruct (Hm h1 h2 Halike) as (Hc1 & Hc2 & Halike' & Hres).
  unfold try_except_KeyError. cbn [exec].
  destruct (exec m1 h1) as [[a1 | e1] h1'], (exec m2 h2) as [[a2 | e2] h2'];
    cbn [fst snd] in *; try contradiction.
  - repeat (split; [assumption |]). assumption.
  - subst e2.
    destruct (@except_KeyError A e1) as [[a | e] |] eqn:E; cbn [fst snd];
      repeat (split; [assumption |]).
    + destruct e1; discriminate.
    + reflexivity.
    + reflexivity.
Qed.

End SameRuns.

Lemma fresh_not_allocated (h : heap) (b : positive) (d : gmap string Q) :
  dicts h !! b = Some d -> fresh (dom (dicts h)) <> b.
Proof.
  intros Hd Heq. apply (is_fresh (dom (dicts h))).
  rewrite Heq. apply elem_of_dom. eauto.
Qed.

(** A method that creates its dictionary and then runs alike on alike
    heaps gives the same outcome from any two heaps that hold the same
    record, and leaves their objects as they were. *)
Lemma stateless_method (f1 f2 : positive -> method positive)
    (h1 h2 : heap) (b1 b2 : positive) (d : gmap string Q) :
  dicts h1 !! b1 = Some d -> dicts h2 !! b2 = Some d ->
  (forall r1 r2, r1 <> b1 -> r2 <> b2 ->
     same_runs b1 r1 b2 r2 (fun x1 x2 => x1 = r1 /\ x2 = r2)
       (f1 r1) (f2 r2)) ->
  outcome (exec (try_except_KeyError (new_dict ≫= f1)) h1)
  = outcome (exec (try_except_KeyError (new_dict ≫= f2)) h2) /\
  preserved h1 (exec (try_except_KeyError (new_dict ≫= f1)) h1).2 /\
  preserved h2 (exec (try_except_KeyError (new_dict ≫= f2)) h2).2.
Proof.
  intros Hd1 Hd2 Hsame.
  pose proof (fresh_not_allocated h1 b1 d Hd1) as Hne1.
  pose proof (fresh_not_allocated h2 b2 d Hd2) as Hne2.
  assert (Hfresh1 : forall obj,
             dicts h1 !! fresh (dom (dicts h1)) = Some obj -> False).
  { intros obj Hobj. apply (is_fresh (dom (dicts h1))), elem_of_dom. eauto. }
  assert (Hfresh2 : forall obj,
             dicts h2 !! fresh (dom (dicts h2)) = Some obj -> False).
  { intros obj Hobj. apply (is_fresh (dom (dicts h2))), elem_of_dom. eauto. }
  set (r1 := fresh (dom (dicts h1))) in *.
  set (r2 := fresh (dom (dicts h2))) in *.
  pose proof (same_try b1 r1 b2 r2 _ _ _ (Hsame r1 r2 Hne1 Hne2)) as Htry.
  specialize (Htry {| dicts := <[r1 := ∅]> (dicts h1);
                      analyzers := analyzers h1 |}
                   {| dicts := <[r2 := ∅]> (dicts h2);
                      analyzers := analyzers h2 |}).
  destruct Htry as ((Ha1 & Hc1) & (Ha2 & Hc2) & (_ & Hr) & Hres).
  { split; cbn [dicts].
    - rewrite !lookup_total_insert_ne by assumption.
      now rewrite (lookup_total_correct _ _ _ Hd1),
        (lookup_total_correct _ _ _ Hd2).
    - now rewrite !lookup_total_insert_eq. }
  change (exec (try_except_KeyError (new_dict ≫= f1)) h1)
    with (exec (try_except_KeyError (f1 r1))
            {| dicts := <[r1 := ∅]> (dicts h1); analyzers := analyzers h1 |}).
  change (exec (try_except_KeyError (new_dict ≫= f2)) h2)
    with (exec (try_except_KeyError (f2 r2))
            {| dicts := <[r2 := ∅]> (dicts h2); analyzers := analyzers h2 |}).
  destruct (exec (try_except_KeyError (f1 r1)) _) as [[x1 | e1] h1'],
    (exec (try_except_KeyError (f2 r2)) _) as [[x2 | e2] h2'];
    cbn [fst snd outcome] in *; try contradiction.
  - destruct Hres as [-> ->]. split; [now rewrite Hr |].
    split; (split; [| assumption]); intros l obj Hl.
    + assert (Hl' : l <> r1) by (intros ->; now apply (Hfresh1 obj)).
      rewrite (Hc1 l Hl'). cbn [dicts].
      rewrite lookup_insert_ne by (intros Heq; now apply Hl'). exact Hl.
    + assert (Hl' : l <> r2) by (intros ->; now apply (Hfresh2 obj)).
      rewrite (Hc2 l Hl'). cbn [dicts].
      rewrite lookup_insert_ne by (intros Heq; now apply Hl'). exact Hl.
  - subst e2. split; [reflexivity |].
    split; (split; [| assumption]); intros l obj Hl.
    + assert (Hl' : l <> r1) by (intros ->; now apply (Hfresh1 obj)).
      rewrite (Hc1 l Hl'). cbn [dicts].
      rewrite lookup_insert_ne by (intros Heq; now apply Hl'). exact Hl.
    + assert (Hl' : l <> r2) by (intros ->; now apply (Hfresh2 obj)).
      rewrite (Hc2 l Hl'). cbn [dicts].
      rewrite lookup_insert_ne by (intros Heq; now apply Hl'). exact Hl.
Qed.

Ltac same_step :=
  first [ apply same_subscript
        | apply same_store_subscript; assumption
        | apply same_pure
        | apply same_and
        | apply same_if
        | apply same_ret; first [reflexivity | split; reflexivity]
        | apply same_bind; [| intros ?; cbn beta] ].

(** The method runs alike from any two heaps that hold the same record. *)
Lemma calculate_advanced_stats_same_runs (h1 h2 : heap)
    (self1 basic_stats1 self2 basic_stats2 : positive) (d : gmap string Q) :
  dicts h1 !! basic_stats1 = Some d ->
  dicts h2 !! basic_stats2 = Some d ->
  outcome (exec (Objects.calculate_advanced_stats self1 basic_stats1) h1)
  = outcome (exec (Objects.calculate_advanced_stats self2 basic_stats2) h2) /\
  preserved h1
    (exec (Objects.calculate_advanced_stats self1 basic_stats1) h1).2 /\
  preserved h2
    (exec (Objects.calculate_advanced_stats self2 basic_stats2) h2).2.
Proof.
  intros Hd1 Hd2. unfold Objects.calculate_advanced_stats.
  apply (stateless_method _ _ h1 h2 basic_stats1 basic_stats2 d Hd1 Hd2).
  intros r1 r2 Hne1 Hne2. repeat same_step.
Qed.

(** C7: [calculate_advanced_stats] is deterministic and stateless.  Two
    calls on records with the same entries end alike, with equal
    dictionaries or with the same exception, whatever the heaps they run
    on: other analyzer objects, other dictionaries, the two records at
    different addresses.  A call leaves every object that existed before
    it as it was, the record and the analyzers included, so that nothing
    is retained: the same call made again right after the first ends as
    the first did. *)
Theorem calculate_advanced_stats_stateless (h1 h2 : heap)
    (self1 basic_stats1 self2 basic_stats2 : positive) (d : gmap string Q) :
  dicts h1 !! basic_stats1 = Some d ->
  dicts h2 !! basic_stats2 = Some d ->
  outcome (exec (Objects.calculate_advanced_stats self1 basic_stats1) h1)
  = outcome (exec (Objects.calculate_advanced_stats self2 basic_stats2) h2) /\
  preserved h1
    (exec (Objects.calculate_advanced_stats self1 basic_stats1) h1).2 /\
  preserved h2
    (exec (Objects.calculate_advanced_stats self2 basic_stats2) h2).2 /\
  outcome (exec (Objects.calculate_advanced_stats self1 basic_stats1)
             (exec (Objects.calculate_advanced_stats self1 basic_stats1) h1).2)
  = outcome (exec (Objects.calculate_advanced_stats self1 basic_stats1) h1).
Proof.
  intros Hd1 Hd2.
  destruct (calculate_advanced_stats_same_runs h1 h2 self1 basic_stats1
              self2 basic_stats2 d Hd1 Hd2) as (Hsame & Hkept1 & Hkept2).
  repeat (split; [assumption |]).
  destruct Hkept1 as [Hdicts _]. specialize (Hdicts basic_stats1 d Hd1).
  exact (proj1 (calculate_advanced_stats_same_runs _ h1 self1 basic_stats1
                  self1 basic_stats1 d Hdicts Hd1)).
Qed.

Lemma calculate_advanced_stats_stateless_witness :
  outcome (exec (Objects.calculate_advanced_stats 2 1) Sample.heap_a)
  = outcome (exec (Objects.calculate_advanced_stats 4 7) Sample.heap_b) /\
  preserved Sample.heap_a
    (exec (Objects.calculate_advanced_stats 2 1) Sample.heap_a).2 /\
  preserved Sample.heap_b
    (exec (Objects.calculate_advanced_stats 4 7) Sample.heap_b).2 /\
  outcome (exec (Objects.calculate_advanced_stats 2 1)
             (exec (Objects.calculate_advanced_stats 2 1) Sample.heap_a).2)
  = outcome (exec (Objects.calculate_advanced_stats 2 1) Sample.heap_a).
Proof.
  apply (calculate_advanced_stats_stateless Sample.heap_a Sample.heap_b
           2 1 4 7 Sample.season);
    reflexivity.
Defined.

End ObjectsProperties.

(** On the sample heap the method on the heap ends as the method on the
    entries of the record does. *)
Lemma calculate_advanced_stats_on_heap :
  Objects.outcome
    (Objects.exec (Objects.calculate_advanced_stats 2 1) Sample.heap_a)
  = calculate_advanced_stats Sample.analyzer Sample.season /\
  Objects.outcome
    (Objects.exec (Objects.calculate_advanced_stats 4 3) Sample.heap_b)
  = calculate_advanced_stats Sample.other_analyzer Sample.bench_without_pts.
Proof. split; vm_compute; reflexivity. Qed.



(** ** The calculator on the numbers of Python *)

Lemma fits_false (v : Numbers.number) :
  Numbers.fits v = false ->
  exists n, v = Numbers.Int n /\ (Numbers.float_limit <= Z.abs n)%Z.
Proof.
  destruct v as [n | x]; cbn -[Numbers.float_limit]; [| discriminate].
  intros H. apply Z.ltb_ge in H. eauto.
Qed.

(** The conversion gives the value of the number, or fails on an integer
    that does not fit. *)
Lemma as_float_outcome (v : Numbers.number) :
  Numbers.as_float v = Ok (Numbers.value v) \/
  (exists msg, Numbers.as_float v = Raise (OverflowError msg) /\
     Numbers.fits v = false).
Proof.
  destruct v as [n | x]; cbn -[Numbers.float_limit]; [| now left].
  destruct (Z.abs n <? Numbers.float_limit)%Z; [now left | right; eauto].
Qed.

Ltac run_result := cbn [mbind mret result_bind result_ret bind].

Lemma mul_Float_l (c : Q) (v : Numbers.number) :
  Numbers.arith_outcome (Numbers.mul (Numbers.Float c) v) (c * Numbers.value v)
    (Numbers.Float c) v.
Proof.
  unfold Numbers.arith_outcome, Numbers.mul. cbn [Numbers.as_float]. run_result.
  destruct (as_float_outcome v) as [-> | (msg & -> & Hfit)]; run_result;
    [now left | right; eauto].
Qed.

Lemma mul_Float_r (v : Numbers.number) (c : Q) :
  Numbers.arith_outcome (Numbers.mul v (Numbers.Float c)) (Numbers.value v * c)
    v (Numbers.Float c).
Proof.
  unfold Numbers.arith_outcome.
  destruct (as_float_outcome v) as [Hv | (msg & Hv & Hfit)];
    destruct v as [n | x]; cbn [Numbers.mul]; try rewrite Hv; run_result;
    cbn [Numbers.as_float]; run_result;
    first [now left | right; eauto].
Qed.

Lemma add_Float_r (v : Numbers.number) (c : Q) :
  Numbers.arith_outcome (Numbers.add v (Numbers.Float c)) (Numbers.value v + c)
    v (Numbers.Float c).
Proof.
  unfold Numbers.arith_outcome.
  destruct (as_float_outcome v) as [Hv | (msg & Hv & Hfit)];
    destruct v as [n | x]; cbn [Numbers.add]; try rewrite Hv; run_result;
    cbn [Numbers.as_float]; run_result;
    first [now left | right; eauto].
Qed.

Lemma add_Float_l (c : Q) (v : Numbers.number) :
  Numbers.arith_outcome (Numbers.add (Numbers.Float c) v) (c + Numbers.value v)
    (Numbers.Float c) v.
Proof.
  unfold Numbers.arith_outcome, Numbers.add. cbn [Numbers.as_float]. run_result.
  destruct (as_float_outcome v) as [-> | (msg & -> & Hfit)]; run_result;
    [now left | right; eauto].
Qed.

Lemma Qabs_div_le (n m : Z) :
  (0 < m)%Z -> Qabs (inject_Z n / inject_Z m) <= inject_Z (Z.abs n).
Proof.
  intros Hm.
  assert (Hc : 1 <= inject_Z m).
  { change 1 with (inject_Z 1). rewrite <- Zle_Qle. lia. }
  assert (Hu : inject_Z n <= inject_Z (Z.abs n)) by (rewrite <- Zle_Qle; lia).
  assert (Hl : - inject_Z (Z.abs n) <= inject_Z n).
  { rewrite <- inject_Z_opp, <- Zle_Qle. lia. }
  assert (HA : 0 <= inject_Z (Z.abs n)).
  { change 0 with (inject_Z 0). rewrite <- Zle_Qle. lia. }
  apply Qabs_Qle_condition. split.
  - apply Qle_shift_div_l; [lra | nra].
  - apply Qle_shift_div_r; [lra | nra].
Qed.

Lemma truediv_outcome (x y : Numbers.number) :
  0 < Numbers.value y ->
  Numbers.arith_outcome (Numbers.truediv x y) (Numbers.value x / Numbers.value y) x y.
Proof.
  intros Hy. unfold Numbers.arith_outcome.
  destruct x as [n | a], y as [m | b]; cbn [Numbers.truediv Numbers.value] in *.
  - assert (Hm : (0 < m)%Z).
    { rewrite Zlt_Qlt. exact Hy. }
    replace (m =? 0)%Z with false by (symmetry; apply Z.eqb_neq; lia).
    destruct (Qle_bool (inject_Z Numbers.float_limit)
                (Qabs (inject_Z n / inject_Z m))) eqn:E; [| now left].
    right. eexists. split; [reflexivity | left].
    apply Qle_bool_iff in E. cbn -[Numbers.float_limit].
    apply Z.ltb_ge. rewrite Zle_Qle.
    eapply Qle_trans; [exact E | now apply Qabs_div_le].
  - cbn -[Numbers.float_limit].
    destruct (Z.abs n <? Numbers.float_limit)%Z eqn:E; run_result.
    + replace (Qeq_bool b 0) with false; [now left |].
      symmetry. destruct (Qeq_bool b 0) eqn:E0; [| reflexivity].
      apply Qeq_bool_eq in E0. lra.
    + right. eauto.
  - cbn -[Numbers.float_limit].
    destruct (Z.abs m <? Numbers.float_limit)%Z eqn:E; run_result.
    + replace (Qeq_bool (inject_Z m) 0) with false; [now left |].
      symmetry. destruct (Qeq_bool (inject_Z m) 0) eqn:E0; [| reflexivity].
      apply Qeq_bool_eq in E0. lra.
    + right. eauto.
  - cbn. replace (Qeq_bool b 0) with false; [now left |].
    symmetry. destruct (Qeq_bool b 0) eqn:E0; [| reflexivity].
    apply Qeq_bool_eq in E0. lra.
Qed.

Lemma gt_value_pos (x : Numbers.number) :
  gt (Numbers.value x) 0 = true -> 0 < Numbers.value x.
Proof. apply gt_0_true. Qed.

Ltac positive_divisor :=
  cbn [Numbers.value]; change (inject_Z 2) with 2;
  repeat match goal with
         | H : gt (Numbers.value _) 0 = true |- _ => apply gt_value_pos in H
         end;
  lra.

Ltac fits_cases :=
  repeat match goal with
         | H : _ \/ _ |- _ => destruct H
         | H : Numbers.fits (Numbers.Float _) = false |- _ => discriminate H
         | H : Numbers.fits (Numbers.Int 2) = false |- _ => discriminate H
         | H : Numbers.fits (Numbers.Int 100) = false |- _ => discriminate H
         end.

Ltac huge_key :=
  match goal with
  | H : Numbers.fits ?v = false, Hk : ?b !! ?k = Some ?v |- _ =>
      let n := fresh "n" in
      let Hn := fresh "Hn" in
      destruct (fits_false v H) as (n & -> & Hn);
      exists k, n; split; [reflexivity |];
      split; [cbn; tauto | split; [exact Hk | exact Hn]]
  end.

(** The computation that a sequence of statements is waiting for. *)
Ltac head_of t :=
  lazymatch t with
  | mbind _ ?m => head_of m
  | _ => t
  end.

Ltac reduce_run :=
  cbn [mbind mret result_bind result_ret bind try_except except_KeyError
       andb Numbers.value fmap option_fmap option_map];
  rewrite ?truediv_ts, ?truediv_gt_0 by assumption;
  cbn [mbind mret result_bind result_ret bind try_except except_KeyError
       andb Numbers.value fmap option_fmap option_map].

Ltac overflowed :=
  fits_cases; left; eexists; huge_key.

Ltac step_head h :=
  lazymatch h with
  | context [?b !! ?k] =>
      let H := fresh "Hk" in destruct (b !! k) eqn:H
  | (if ?c then _ else _) =>
      let H := fresh "Hgt" in destruct c eqn:H
  | Numbers.mul (Numbers.Float ?c) ?v =>
      let H := fresh "Hfit" in
      destruct (mul_Float_l c v) as [-> | (? & -> & H)]
  | Numbers.mul ?v (Numbers.Float ?c) =>
      let H := fresh "Hfit" in
      destruct (mul_Float_r v c) as [-> | (? & -> & H)]
  | Numbers.add ?v (Numbers.Float ?c) =>
      let H := fresh "Hfit" in
      destruct (add_Float_r v c) as [-> | (? & -> & H)]
  | Numbers.add (Numbers.Float ?c) ?v =>
      let H := fresh "Hfit" in
      destruct (add_Float_l c v) as [-> | (? & -> & H)]
  | Numbers.truediv ?x ?y =>
      let H := fresh "Hfit" in
      destruct (truediv_outcome x y) as [-> | (? & -> & H)];
      [positive_divisor | |]
  end;
  reduce_run.

Ltac step_numbers :=
  match goal with
  | |- context [@try_except (gmap string Numbers.number) ?body _] =>
      let h := head_of body in step_head h
  end;
  try overflowed.

(** Unless an integer too large for a [float] stops it, the run on
    Python's numbers goes the way of the run on their values. *)
Lemma numbers_simulation self (b : gmap string Numbers.number) :
  (exists msg k n,
     Numbers.calculate_advanced_stats self b = Raise (OverflowError msg) /\
     In k read_fields /\ b !! k = Some (Numbers.Int n) /\
     (Numbers.float_limit <= Z.abs n)%Z) \/
  match calculate_advanced_stats self (Numbers.value <$> b) with
  | Ok q =>
      exists adv, Numbers.calculate_advanced_stats self b = Ok adv /\
        Numbers.value <$> adv = q
  | Raise e => Numbers.calculate_advanced_stats self b = Raise e
  end.
Proof.
  unfold Numbers.calculate_advanced_stats, calculate_advanced_stats, and_,
    getitem.
  unfold Numbers.gt. cbn [Numbers.value]. change (inject_Z 0) with 0.
  rewrite !lookup_fmap. reduce_run.
  repeat step_numbers;
    right;
    first [ reflexivity
          | eexists; split; [reflexivity |];
            rewrite !fmap_insert, fmap_empty; reflexivity ].
Qed.

Lemma fits_float_field (b : gmap string Numbers.number) (k : string)
    (v : Numbers.number) :
  Numbers.fits_float b = true -> In k read_fields -> b !! k = Some v ->
  Numbers.fits v = true.
Proof.
  unfold Numbers.fits_float. rewrite forallb_forall. intros Hall Hk Hv.
  specialize (Hall k). rewrite Hv in Hall. apply Hall.
  cbn in Hk. cbn. tauto.
Qed.

(** On a record whose numbers fit, the run goes the way of the run on the
    values. *)
Lemma numbers_simulation_fits self (b : gmap string Numbers.number) :
  Numbers.fits_float b = true ->
  match calculate_advanced_stats self (Numbers.value <$> b) with
  | Ok q =>
      exists adv, Numbers.calculate_advanced_stats self b = Ok adv /\
        Numbers.value <$> adv = q
  | Raise e => Numbers.calculate_advanced_stats self b = Raise e
  end.
Proof.
  intros Hfits.
  destruct (numbers_simulation self b) as [(msg & k & n & _ & Hk & Hv & Hn) | H];
    [exfalso | exact H].
  pose proof (fits_float_field b k _ Hfits Hk Hv) as Hfit.
  cbn -[Numbers.float_limit] in Hfit. apply Z.ltb_lt in Hfit. lia.
Qed.

Lemma numbers_reads_only self (b b' : gmap string Numbers.number) :
  (forall k, In k read_fields -> b' !! k = b !! k) ->
  Numbers.calculate_advanced_stats self b'
  = Numbers.calculate_advanced_stats self b.
Proof.
  intros Hsame. unfold Numbers.calculate_advanced_stats, and_, getitem.
  cbn [mbind mret result_bind result_ret bind try_except].
  rewrite !(Hsame "fga"), !(Hsame "fta"), !(Hsame "pts"), !(Hsame "min"),
    !(Hsame "turnover"), !(Hsame "ast") by (cbn; tauto).
  reflexivity.
Qed.

(** C10, as stated in the specification, fails: on a record that holds
    the six fields, all of them integers, with more points than a [float]
    can hold, the call does not succeed.  The division of the true
    shooting percentage converts the points to a [float], and the
    [OverflowError] of the conversion leaves the method. *)
Lemma huge_points_overflow :
  (forall k, In k read_fields -> is_Some (Sample.huge_points !! k)) /\
  Numbers.calculate_advanced_stats Sample.analyzer Sample.huge_points
  = Raise (OverflowError "int too large to convert to float").
Proof.
  split; [| vm_compute; reflexivity].
  intros k Hk. cbn in Hk.
  repeat (destruct Hk as [<- | Hk]; [eexists; reflexivity |]).
  contradiction.
Qed.

(** C10 (amended): the calculator subscripts the six keys of
    [read_fields] and no other.  On a record that holds these six, each a
    [float] or an [int] within the range of [float], the call succeeds:
    it returns a dictionary with exactly the four derived statistics, each
    with the value of its formula, and it returns the same dictionary on
    every record that agrees with this one on the six keys, whatever
    other fields that record lacks or holds. *)
Theorem calculate_advanced_stats_six_fields_in_range self
    (b b' : gmap string Numbers.number)
    (fga fta pts min turnover ast : Numbers.number) :
  b !! "fga" = Some fga -> b !! "fta" = Some fta -> b !! "pts" = Some pts ->
  b !! "min" = Some min -> b !! "turnover" = Some turnover ->
  b !! "ast" = Some ast ->
  Numbers.fits_float b = true ->
  (forall k, In k read_fields -> b' !! k = b !! k) ->
  exists adv,
    Numbers.calculate_advanced_stats self b = Ok adv /\
    Numbers.calculate_advanced_stats self b' = Ok adv /\
    dom adv = advanced_fields /\
    Numbers.value <$> adv
    = <["pts_per_shot" :=
          if gt (Numbers.value fga) 0
          then Numbers.value pts / Numbers.value fga else 0]>
        (<["ast_to_ratio" :=
             if gt (Numbers.value turnover) 0
             then Numbers.value ast / Numbers.value turnover
             else Numbers.value ast]>
           (<["usage_rate" :=
                if gt (Numbers.value min) 0
                then (Numbers.value fga + 0.44 * Numbers.value fta
                      + Numbers.value turnover) / Numbers.value min * 100
                else 0]>
              (<["ts_pct" :=
                   if gt (Numbers.value fga) 0 && gt (Numbers.value fta) 0
                   then Numbers.value pts
                        / (2 * (Numbers.value fga + 0.44 * Numbers.value fta))
                        * 100
                   else 0]> ∅))).
Proof.
  intros Hfga Hfta Hpts Hmin Hto Hast Hfits Hsame.
  pose proof (numbers_simulation_fits self b Hfits) as Hsim.
  rewrite (calculate_advanced_stats_run self (Numbers.value <$> b)
             (Numbers.value fga) (Numbers.value fta) (Numbers.value pts)
             (Numbers.value min) (Numbers.value turnover) (Numbers.value ast))
    in Hsim by (rewrite lookup_fmap;
                first [rewrite Hfga | rewrite Hfta | rewrite Hpts
                      | rewrite Hmin | rewrite Hto | rewrite Hast];
                reflexivity).
  destruct Hsim as (adv & Hadv & Hvalues). exists adv.
  split; [exact Hadv |]. split; [| split; [| exact Hvalues]].
  - rewrite (numbers_reads_only self b b' Hsame). exact Hadv.
  - rewrite <- (dom_fmap_L Numbers.value adv), Hvalues.
    rewrite !dom_insert_L, dom_empty_L. unfold advanced_fields. set_solver.
Qed.


Lemma calculate_advanced_stats_six_fields_in_range_witness :
  exists adv,
    Numbers.calculate_advanced_stats Sample.analyzer Sample.season_numbers
    = Ok adv /\
    Numbers.calculate_advanced_stats Sample.analyzer
      Sample.season_numbers_core = Ok adv /\
    dom adv = advanced_fields /\
    Numbers.value <$> adv = Demo.season_advanced.
Proof.
  apply (calculate_advanced_stats_six_fields_in_range Sample.analyzer
           Sample.season_numbers Sample.season_numbers_core
           (Numbers.Int 20) (Numbers.Int 10) (Numbers.Int 30)
           (Numbers.Float 34.5) (Numbers.Int 2) (Numbers.Int 5));
    try reflexivity.
  intros k Hk. cbn in Hk.
  repeat (destruct Hk as [<- | Hk]; [reflexivity |]).
  contradiction.
Defined.

(** ** The stats provider: error outcomes *)

(** C8, as stated in the specification, fails: the outcomes of a 401
    answer, of a 429 answer and of a network failure are exceptions of one
    and the same class, the generic [Exception]. *)
Lemma search_player_errors_share_class :
  same_exception_class
    (search_player (Sample.answers 401) Sample.analyzer "LeBron")
    (search_player (Sample.answers 429) Sample.analyzer "LeBron") /\
  same_exception_class
    (search_player (Sample.answers 429) Sample.analyzer "LeBron")
    (search_player Sample.unreachable Sample.analyzer "LeBron").
Proof.
  split; reflexivity.
Qed.

(** C8 (amended): [search_player] raises the generic [Exception] in the
    three cases, and the cases differ by the message only: "Invalid API
    key. Please check your API key." for a 401 answer, "Rate limit
    exceeded. Please try again later." for a 429 answer, and "API request
    failed: " followed by the text of the error for a failure of the
    request.  The three exceptions are pairwise different. *)
Theorem search_player_error_messages (JSON : Type)
    (net401 net429 netdown :
       string -> gmap string string -> gmap string string
       -> result (Response JSON))
    (self : NBAStatsAnalyzer) (name : string)
    (r401 r429 : Response JSON) (err : string) :
  net401 (base_url self ++ "/players") {[ "search" := name ]} (headers self)
  = Ok r401 ->
  status_code r401 = 401%Z ->
  net429 (base_url self ++ "/players") {[ "search" := name ]} (headers self)
  = Ok r429 ->
  status_code r429 = 429%Z ->
  netdown (base_url self ++ "/players") {[ "search" := name ]} (headers self)
  = Raise (RequestException err) ->
  exists e401 e429 edown,
    search_player net401 self name = Raise e401 /\
    search_player net429 self name = Raise e429 /\
    search_player netdown self name = Raise edown /\
    e401 = Exception "Invalid API key. Please check your API key." /\
    e429 = Exception "Rate limit exceeded. Please try again later." /\
    edown = Exception ("API request failed: " ++ err) /\
    e401 <> e429 /\ e401 <> edown /\ e429 <> edown.
Proof.
  intros H401 S401 H429 S429 Hdown.
  eexists _, _, _. unfold search_player.
  rewrite H401, H429, Hdown.
  cbn [mbind mret result_bind result_ret bind try_except
       except_RequestException str].
  rewrite S401, S429. cbn [Z.eqb Pos.eqb try_except].
  repeat (split; [reflexivity |]). repeat split; discriminate.
Qed.

Lemma search_player_error_messages_witness :
  exists e401 e429 edown,
    search_player (Sample.answers 401) Sample.analyzer "LeBron" = Raise e401 /\
    search_player (Sample.answers 429) Sample.analyzer "LeBron" = Raise e429 /\
    search_player Sample.unreachable Sample.analyzer "LeBron" = Raise edown /\
    e401 = Exception "Invalid API key. Please check your API key." /\
    e429 = Exception "Rate limit exceeded. Please try again later." /\
    edown = Exception ("API request failed: " ++ "Connection refused") /\
    e401 <> e429 /\ e401 <> edown /\ e429 <> edown.
Proof.
  apply (search_player_error_messages unit
           (Sample.answers 401) (Sample.answers 429) Sample.unreachable
           Sample.analyzer "LeBron"
           {| status_code := 401; json := Ok ∅ |}
           {| status_code := 429; json := Ok ∅ |}
           "Connection refused");
    reflexivity.
Defined.

(** * Further properties *)

(** ** [search_player]: the answers of the API *)

Ltac run_request :=
  cbn [mbind mret result_bind result_ret bind try_except
       except_RequestException except_RequestException_stats str].

(** X1: [search_player] returns a value exactly when the API answered
    with status 200 and a body that decodes to a dictionary holding
    ["data"]; the value returned is that entry. *)
Theorem search_player_returns_data_iff (JSON : Type)
    (requests_get :
       string -> gmap string string -> gmap string string
       -> result (Response JSON))
    (self : NBAStatsAnalyzer) (name : string) (data : JSON) :
  search_player requests_get self name = Ok data <->
  exists response body,
    requests_get (base_url self ++ "/players") {[ "search" := name ]}
      (headers self) = Ok response /\
    status_code response = 200%Z /\
    json response = Ok body /\
    body !! "data" = Some data.
Proof.
  unfold search_player, getitem. split.
  - destruct (requests_get _ _ _) as [response | e] eqn:Hget; run_request.
    + destruct (status_code response =? 200)%Z eqn:E200; run_request.
      * apply Z.eqb_eq in E200.
        destruct (json response) as [body | e] eqn:Hjson; run_request.
        -- destruct (body !! "data") as [d |] eqn:Hdata; run_request.
           ++ intros [= <-]. eauto 10.
           ++ discriminate.
        -- destruct e; discriminate.
      * destruct (status_code response =? 401)%Z; run_request;
          [discriminate |].
        destruct (status_code response =? 429)%Z; run_request; discriminate.
    + destruct e; discriminate.
  - intros (response & body & -> & Hstatus & Hjson & Hdata). run_request.
    rewrite Hstatus, Hjson. run_request. rewrite Hdata. reflexivity.
Qed.

(** X2: when the API answers with status 200 and a body without ["data"],
    the [KeyError] of the subscript leaves [search_player] as it is: it is
    not turned into one of the messages of the method. *)
Theorem search_player_body_without_data (JSON : Type)
    (requests_get :
       string -> gmap string string -> gmap string string
       -> result (Response JSON))
    (self : NBAStatsAnalyzer) (name : string)
    (response : Response JSON) (body : gmap string JSON) :
  requests_get (base_url self ++ "/players") {[ "search" := name ]}
    (headers self) = Ok response ->
  status_code response = 200%Z ->
  json response = Ok body ->
  body !! "data" = None ->
  search_player requests_get self name = Raise (KeyError "data").
Proof.
  intros Hget Hstatus Hjson Hdata. unfold search_player, getitem.
  rewrite Hget. run_request. rewrite Hstatus, Hjson. run_request.
  rewrite Hdata. reflexivity.
Qed.

Lemma search_player_body_without_data_witness :
  search_player (Sample.answers 200) Sample.analyzer "LeBron"
  = Raise (KeyError "data").
Proof.
  apply (search_player_body_without_data unit (Sample.answers 200)
           Sample.analyzer "LeBron"
           {| status_code := 200; json := Ok ∅ |} ∅);
    reflexivity.
Defined.

(** X3: a status other than 200, 401 and 429 is reported by the generic
    [Exception] with the message "API request failed with status code "
    followed by the code in decimal; no failure of the request itself
    gives the same exception. *)
Theorem search_player_other_status (JSON : Type)
    (requests_get :
       string -> gmap string string -> gmap string string
       -> result (Response JSON))
    (self : NBAStatsAnalyzer) (name : string) (response : Response JSON) :
  requests_get (base_url self ++ "/players") {[ "search" := name ]}
    (headers self) = Ok response ->
  status_code response <> 200%Z ->
  status_code response <> 401%Z ->
  status_code response <> 429%Z ->
  search_player requests_get self name
  = Raise (Exception ("API request failed with status code "
                      ++ pretty (status_code response))) /\
  forall err : string,
    Exception ("API request failed with status code "
               ++ pretty (status_code response))
    <> Exception ("API request failed: " ++ err).
Proof.
  intros Hget H200 H401 H429. split.
  - unfold search_player. rewrite Hget. run_request.
    apply Z.eqb_neq in H200, H401, H429. rewrite H200, H401, H429.
    reflexivity.
  - intros err. cbn. discriminate.
Qed.

Lemma search_player_other_status_witness :
  search_player (Sample.answers 503) Sample.analyzer "LeBron"
  = Raise (Exception "API request failed with status code 503") /\
  forall err : string,
    Exception "API request failed with status code 503"
    <> Exception ("API request failed: " ++ err).
Proof.
  apply (search_player_other_status unit (Sample.answers 503)
           Sample.analyzer "LeBron" {| status_code := 503; json := Ok ∅ |});
    [reflexivity | discriminate | discriminate | discriminate].
Defined.

(** X4: no [RequestException] leaves [search_player], whether the library
    raises it in [requests.get] or in [response.json()]. *)
Theorem search_player_never_RequestException (JSON : Type)
    (requests_get :
       string -> gmap string string -> gmap string string
       -> result (Response JSON))
    (self : NBAStatsAnalyzer) (name msg : string) :
  search_player requests_get self name <> Raise (RequestException msg).
Proof.
  unfold search_player, getitem.
  destruct (requests_get _ _ _) as [response | e]; run_request.
  - destruct (status_code response =? 200)%Z; run_request.
    + destruct (json response) as [body | e]; run_request.
      * destruct (body !! "data"); discriminate.
      * destruct e; discriminate.
    + destruct (status_code response =? 401)%Z; run_request;
        [discriminate |].
      destruct (status_code response =? 429)%Z; run_request; discriminate.
  - destruct e; discriminate.
Qed.

(** X5: an analyzer created with [api_key] sends one request, to
    ["https://www.balldontlie.io/api/v1/players"], with the searched name
    as the parameter ["search"] and the key as the bearer token of the
    header ["Authorization"]; the outcome of [search_player] is decided by
    the answer to this request, and not by the year of creation. *)
Theorem search_player_request (JSON : Type)
    (net net' :
       string -> gmap string string -> gmap string string
       -> result (Response JSON))
    (api_key name : string) (year year' : Z) :
  net "https://www.balldontlie.io/api/v1/players" {[ "search" := name ]}
    {[ "Authorization" := "Bearer " ++ api_key ]}
  = net' "https://www.balldontlie.io/api/v1/players" {[ "search" := name ]}
      {[ "Authorization" := "Bearer " ++ api_key ]} ->
  search_player net (__init__ api_key year) name
  = search_player net' (__init__ api_key year') name.
Proof.
  intros Hsame. unfold search_player, __init__. cbn [base_url headers].
  change ("https://www.balldontlie.io/api/v1" ++ "/players")
    with "https://www.balldontlie.io/api/v1/players".
  rewrite Hsame. reflexivity.
Qed.

(** ** [get_player_stats] *)

(** X6: without a season, [get_player_stats] asks for the season stored in
    the analyzer.  It sends one request, to the address
    [base_url + "/season_averages"], with the player as ["player_ids[]"],
    the season as ["season"] and the headers of the analyzer, and its
    outcome is decided by the answer to this request. *)
Theorem get_player_stats_request (JSON : Type)
    (net net' :
       string -> gmap string Z -> gmap string string
       -> result (Response JSON))
    (self : NBAStatsAnalyzer) (player_id : Z) :
  net (base_url self ++ "/season_averages")
    {[ "player_ids[]" := player_id; "season" := current_season self ]}
    (headers self)
  = net' (base_url self ++ "/season_averages")
      {[ "player_ids[]" := player_id; "season" := current_season self ]}
      (headers self) ->
  get_player_stats net self player_id None
  = get_player_stats net' self player_id (Some (current_season self)).
Proof.
  intros Hsame. unfold get_player_stats. rewrite Hsame. reflexivity.
Qed.

(** X7: every status other than 200, the statuses 401 and 429 included, is
    reported by the generic [Exception] with the one message "Failed to
    get player stats. Status code: " followed by the code in decimal. *)
Theorem get_player_stats_status_error (JSON : Type)
    (requests_get :
       string -> gmap string Z -> gmap string string
       -> result (Response JSON))
    (self : NBAStatsAnalyzer) (player_id season : Z)
    (response : Response JSON) :
  requests_get (base_url self ++ "/season_averages")
    {[ "player_ids[]" := player_id; "season" := season ]} (headers self)
  = Ok response ->
  status_code response <> 200%Z ->
  get_player_stats requests_get self player_id (Some season)
  = Raise (Exception ("Failed to get player stats. Status code: "
                      ++ pretty (status_code response))).
Proof.
  intros Hget H200. unfold get_player_stats. rewrite Hget. run_request.
  apply Z.eqb_neq in H200. rewrite H200. reflexivity.
Qed.

(** X8: [get_player_stats] returns a value exactly when the API answered
    with status 200 and a body that decodes to a dictionary holding
    ["data"]; a [RequestException] never leaves it. *)
Theorem get_player_stats_outcome (JSON : Type)
    (requests_get :
       string -> gmap string Z -> gmap string string
       -> result (Response JSON))
    (self : NBAStatsAnalyzer) (player_id season : Z) :
  (forall data,
     get_player_stats requests_get self player_id (Some season) = Ok data <->
     exists response body,
       requests_get (base_url self ++ "/season_averages")
         {[ "player_ids[]" := player_id; "season" := season ]}
         (headers self) = Ok response /\
       status_code response = 200%Z /\
       json response = Ok body /\
       body !! "data" = Some data) /\
  (forall msg,
     get_player_stats requests_get self player_id (Some season)
     <> Raise (RequestException msg)).
Proof.
  unfold get_player_stats, getitem. split; [intros data; split |].
  - destruct (requests_get _ _ _) as [response | e] eqn:Hget; run_request.
    + destruct (status_code response =? 200)%Z eqn:E200; run_request;
        [| discriminate].
      apply Z.eqb_eq in E200.
      destruct (json response) as [body | e] eqn:Hjson; run_request.
      * destruct (body !! "data") as [d |] eqn:Hdata; run_request.
        -- intros [= <-]. eauto 10.
        -- discriminate.
      * destruct e; discriminate.
    + destruct e; discriminate.
  - intros (response & body & -> & Hstatus & Hjson & Hdata). run_request.
    rewrite Hstatus, Hjson. run_request. rewrite Hdata. reflexivity.
  - intros msg.
    destruct (requests_get _ _ _) as [response | e]; run_request.
    + destruct (status_code response =? 200)%Z; run_request;
        [| discriminate].
      destruct (json response) as [body | e]; run_request.
      * destruct (body !! "data"); discriminate.
      * destruct e; discriminate.
    + destruct e; discriminate.
Qed.

(** ** [calculate_advanced_stats]: outcomes *)

(** X9: on a record of numbers, an exception that leaves
    [calculate_advanced_stats] is either the generic [Exception] whose
    message names a key, among the six it subscripts, that is absent from
    the record, or an [OverflowError], and then one of the six fields
    holds an integer beyond the range of [float].  No [ZeroDivisionError]
    and no [KeyError] comes out of it. *)
Theorem calculate_advanced_stats_number_exceptions self (b : gmap string Numbers.number) (e : exn) :
  Numbers.calculate_advanced_stats self b = Raise e ->
  (exists k, In k read_fields /\ b !! k = None /\
     e = Exception (missing_field_message k)) \/
  (exists msg k n, e = OverflowError msg /\ In k read_fields /\
     b !! k = Some (Numbers.Int n) /\
     (Numbers.float_limit <= Z.abs n)%Z).
Proof.
  intros Hraise.
  destruct (numbers_simulation self b)
    as [(msg & k & n & Hover & Hk & Hv & Hn) | Hsim].
  - right. exists msg, k, n. split; [congruence | auto].
  - left.
    destruct (calculate_advanced_stats_outcome self (Numbers.value <$> b))
      as [[q Hq] | (k & Hk & Habs & Hq)]; rewrite Hq in Hsim.
    + destruct Hsim as (adv & Hadv & _). congruence.
    + exists k. split; [exact Hk |]. split; [| congruence].
      rewrite lookup_fmap in Habs. now destruct (b !! k).
Qed.

(** X10: on a record of numbers, [calculate_advanced_stats] returns a
    dictionary only when the record holds every field the run subscripts,
    and it does return one when, in addition, the integers among the six
    fields are within the range of [float]. *)
Theorem calculate_advanced_stats_number_returns self (b : gmap string Numbers.number) :
  ((exists adv, Numbers.calculate_advanced_stats self b = Ok adv) ->
   ~ reads_absent_field (Numbers.value <$> b)) /\
  (~ reads_absent_field (Numbers.value <$> b) ->
   Numbers.fits_float b = true ->
   exists adv, Numbers.calculate_advanced_stats self b = Ok adv).
Proof.
  split.
  - intros [adv Hadv].
    destruct (numbers_simulation self b)
      as [(msg & k & n & Hover & _) | Hsim]; [congruence |].
    destruct (calculate_advanced_stats self (Numbers.value <$> b))
      as [q | e] eqn:Hq; [| congruence].
    exact (calculate_advanced_stats_Ok_reads self _ q Hq).
  - intros Hpres Hfits.
    destruct (calculate_advanced_stats_total self _ Hpres) as [q Hq].
    pose proof (numbers_simulation_fits self b Hfits) as Hsim.
    rewrite Hq in Hsim. destruct Hsim as (adv & Hadv & _). eauto.
Qed.

Lemma calculate_advanced_stats_number_exceptions_witness :
  (exists k, In k read_fields /\ Sample.huge_points !! k = None /\
     OverflowError "int too large to convert to float"
     = Exception (missing_field_message k)) \/
  (exists msg k n,
     OverflowError "int too large to convert to float" = OverflowError msg /\
     In k read_fields /\
     Sample.huge_points !! k = Some (Numbers.Int n) /\
     (Numbers.float_limit <= Z.abs n)%Z).
Proof.
  apply (calculate_advanced_stats_number_exceptions Sample.analyzer
           Sample.huge_points
           (OverflowError "int too large to convert to float")).
  vm_compute. reflexivity.
Defined.

(** X11: a dictionary returned by [calculate_advanced_stats] holds the
    four derived statistics and nothing else, on every record, also on
    those from which fields are absent. *)
Theorem calculate_advanced_stats_keys self (b adv : gmap string Q) :
  calculate_advanced_stats self b = Ok adv -> dom adv = advanced_fields.
Proof.
  run_calculator. repeat step_calculator; try discriminate;
    intros [= <-]; rewrite !dom_insert_L, dom_empty_L;
    unfold advanced_fields; set_solver.
Qed.


(** ** [display_player_stats] *)

Ltac run_io :=
  unfold mbind, mret, io_bind, io_ret, print, lift;
  cbn [run for_].

Ltac io_done :=
  run_io; cbn [run for_ fst snd]; unfold player_header;
  rewrite <- ?app_assoc; cbn [app String.append]; reflexivity.

Lemma appends_lift {A : Type} (r : result A) : appends (lift r).
Proof. intros out. cbn. now rewrite app_nil_r. Qed.

Lemma appends_print (s : string) : appends (print s).
Proof. intros out. reflexivity. Qed.

Lemma appends_ret {A : Type} (a : A) : appends (mret a : io A).
Proof. intros out. cbn. now rewrite app_nil_r. Qed.

Lemma appends_bind {A B : Type} (m : io A) (f : A -> io B) :
  appends m -> (forall a, appends (f a)) -> appends (m ≫= f).
Proof.
  intros Hm Hf out. run_io. rewrite (Hm out).
  destruct (run m []) as [[a | e] out1]; cbn [fst snd].
  - rewrite (Hf a (out ++ out1)%list), (Hf a out1). cbn [fst snd].
    now rewrite app_assoc.
  - reflexivity.
Qed.

Lemma appends_for {A : Type} (l : list A) (body : A -> io unit) :
  (forall x, appends (body x)) -> appends (for_ l body).
Proof.
  intros Hbody. induction l as [| x l IH]; cbn [for_].
  - apply appends_ret.
  - apply appends_bind; [apply Hbody | intros _; exact IH].
Qed.

(** The message of the exception tells the key. *)
Lemma missing_field_message_inj (k k' : string) :
  missing_field_message k = missing_field_message k' -> k = k'.
Proof.
  unfold missing_field_message. cbn [String.append]. intros H.
  injection H as H. revert k' H.
  induction k as [| c k IH]; intros [| c' k'] H; cbn in H.
  - reflexivity.
  - injection H as _ H. destruct k'; discriminate.
  - injection H as _ H. destruct k; discriminate.
  - injection H as -> H. f_equal. exact (IH k' H).
Qed.

Section DisplayProperties.

Variable env : Env.

Lemma appends_display_player self season player :
  appends (display_player env self season player).
Proof.
  unfold display_player.
  apply appends_bind; [apply appends_lift | intros stats].
  apply appends_bind; [apply appends_print | intros _].
  apply appends_bind; [apply appends_print | intros _].
  apply appends_bind; [apply appends_print | intros _].
  destruct stats as [| stats _]; [apply appends_print |].
  apply appends_bind; [apply appends_lift | intros row].
  apply appends_bind; [apply appends_print | intros _].
  apply appends_bind; [apply appends_print | intros _].
  apply appends_bind; [apply appends_lift | intros adv].
  apply appends_bind; [apply appends_print | intros _].
  apply appends_for. intros [stat value]. apply appends_print.
Qed.

(** X14: when the search finds no player, the one line "No players found
    matching '<name>'" is printed, and the statistics are not asked for. *)
Theorem display_no_players self name season (out : list event) :
  search_player (players_api env) self name = Ok [] ->
  display_player_stats env self name season out
  = (out ++ [Line ("No players found matching '" ++ name ++ "'")])%list.
Proof.
  intros Hsearch. unfold display_player_stats, display_player_stats_try.
  run_io. rewrite Hsearch. reflexivity.
Qed.

(** X15: when the search fails, the one line "Error: " followed by the
    text of the exception is printed, and nothing else. *)
Theorem display_search_error self name season (out : list event) (e : exn) :
  search_player (players_api env) self name = Raise e ->
  display_player_stats env self name season out
  = (out ++ [Line ("Error: " ++ str e)])%list.
Proof.
  intros Hsearch. unfold display_player_stats, display_player_stats_try.
  run_io. rewrite Hsearch. reflexivity.
Qed.

(** The loop over the players stops at the first player whose display
    raises. *)
Lemma for_display_stops self season (shown : list Player.t)
    (player : Player.t) (rest : list Player.t)
    (out out1 out2 : list event) (e : exn) :
  run (for_ shown (display_player env self season)) out = (Ok tt, out1) ->
  run (display_player env self season player) out1 = (Raise e, out2) ->
  run (for_ (shown ++ player :: rest)%list (display_player env self season)) out
  = (Raise e, out2).
Proof.
  revert out. induction shown as [| x shown IH]; intros out Hshown Hplayer.
  - cbn in Hshown. injection Hshown as <-. cbn [app for_]. run_io.
    rewrite Hplayer. reflexivity.
  - cbn [app for_] in *. revert Hshown. run_io.
    destruct (run (display_player env self season x) out) as [[[] | e'] out'];
      [| discriminate].
    intros Hshown. exact (IH out' Hshown Hplayer).
Qed.

(** X16: the listing stops at the first player whose display fails: the
    players before it are shown, the line "Error: ..." follows what was
    printed for the failing player, and no player after it is shown or
    asked for. *)
Theorem display_stops_at_first_failure self name season
    (shown : list Player.t) (player : Player.t) (rest : list Player.t)
    (out out1 out2 : list event) (e : exn) :
  search_player (players_api env) self name
  = Ok (shown ++ player :: rest)%list ->
  run (for_ shown (display_player env self season)) out = (Ok tt, out1) ->
  run (display_player env self season player) out1 = (Raise e, out2) ->
  display_player_stats env self name season out
  = (out2 ++ [Line ("Error: " ++ str e)])%list.
Proof.
  intros Hsearch Hshown Hplayer.
  unfold display_player_stats, display_player_stats_try.
  unfold mbind at 1. unfold io_bind at 1. unfold lift at 1. cbn [run].
  rewrite Hsearch.
  destruct (shown ++ player :: rest)%list as [| y l] eqn:Hl.
  { destruct shown; discriminate. }
  rewrite <- Hl.
  rewrite (for_display_stops self season shown player rest out out1 out2 e
             Hshown Hplayer).
  reflexivity.
Qed.

(** X17: when the statistics of the first player found cannot be fetched,
    the one line "Error: ..." is printed: nothing is shown about this
    player, and the other players are neither asked for nor shown. *)
Theorem display_stats_error self name season
    (player : Player.t) (rest : list Player.t) (out : list event) (e : exn) :
  search_player (players_api env) self name = Ok (player :: rest) ->
  get_player_stats (season_averages_api env) self (Player.id player) season
  = Raise e ->
  display_player_stats env self name season out
  = (out ++ [Line ("Error: " ++ str e)])%list.
Proof.
  intros Hsearch Hget.
  unfold display_player_stats, display_player_stats_try, display_player.
  run_io. rewrite Hsearch. cbn [for_]. run_io. rewrite Hget. reflexivity.
Qed.

(** X18: when the API holds no statistics for the only player found, the
    header of the player is followed by "No statistics found for season "
    and the season as it was given to [display_player_stats]: the text
    "None" when no season was given, although the request was made for the
    season stored in the analyzer. *)
Theorem display_no_statistics self name season
    (player : Player.t) (out : list event) :
  search_player (players_api env) self name = Ok [player] ->
  get_player_stats (season_averages_api env) self (Player.id player) season
  = Ok [] ->
  display_player_stats env self name season out
  = (out ++ player_header player
         ++ [Line ("No statistics found for season "
                   ++ PyStr.str_optional_int season)])%list.
Proof.
  intros Hsearch Hget.
  unfold display_player_stats, display_player_stats_try, display_player.
  run_io. rewrite Hsearch. cbn [for_]. run_io. rewrite Hget. io_done.
Qed.

(** The dictionary literal of the table raises the [KeyError] of an
    absent column, or gives the row. *)
Lemma table_row_outcome (stats : gmap string Q) :
  (exists row, table_row env stats = Ok row) \/
  (exists k, In k table_fields /\ stats !! k = None /\
     table_row env stats = Raise (KeyError k)).
Proof.
  unfold table_row, getitem.
  repeat match goal with
         | |- context [match ?b !! ?k with _ => _ end] =>
             let H := fresh "Hk" in
             destruct (b !! k) eqn:H;
             cbn [mbind mret result_bind result_ret bind];
             [| right; exists k; split; [cbn; tauto | split; [exact H | reflexivity]]]
         end.
  left. eexists. reflexivity.
Qed.

Lemma table_row_Ok_present (stats : gmap string Q) row :
  table_row env stats = Ok row ->
  forall k, In k table_fields -> is_Some (stats !! k).
Proof.
  unfold table_row, getitem.
  repeat match goal with
         | |- context [match ?b !! ?k with _ => _ end] =>
             destruct (b !! k) eqn:?;
             cbn [mbind mret result_bind result_ret bind];
             [| discriminate]
         end.
  intros _ k Hk. cbn in Hk.
  repeat (destruct Hk as [<- | Hk]; [eauto |]). contradiction.
Qed.

Lemma table_row_present (stats : gmap string Q) :
  (forall k, In k table_fields -> is_Some (stats !! k)) ->
  exists row, table_row env stats = Ok row.
Proof.
  intros Hpres.
  destruct (table_row_outcome stats) as [Hrow | (k & Hin & Hk & _)];
    [exact Hrow |].
  destruct (Hpres k Hin) as [x Hx]. congruence.
Qed.

(** X19: when a column of the table is absent from the record of the
    first player found, the header of the player is followed by "Error: "
    and the key of an absent column between quotes: the table, the derived
    statistics and the other players are not shown. *)
Theorem display_missing_column self name season
    (player : Player.t) (rest : list Player.t)
    (stats : gmap string Q) (others : list (gmap string Q))
    (out : list event) (column : string) :
  search_player (players_api env) self name = Ok (player :: rest) ->
  get_player_stats (season_averages_api env) self (Player.id player) season
  = Ok (stats :: others) ->
  In column table_fields -> stats !! column = None ->
  exists k, In k table_fields /\ stats !! k = None /\
    display_player_stats env self name season out
    = (out ++ player_header player ++ [Line ("Error: '" ++ k ++ "'")])%list.
Proof.
  intros Hsearch Hget Hin Hcolumn.
  destruct (table_row_outcome stats) as [[row Hrow] | (k & Hk & Habs & Hrow)].
  - destruct (table_row_Ok_present stats row Hrow column Hin) as [x Hx].
    congruence.
  - exists k. split; [exact Hk | split; [exact Habs |]].
    unfold display_player_stats, display_player_stats_try, display_player.
    run_io. rewrite Hsearch. cbn [for_]. run_io. rewrite Hget.
    cbn [run]. rewrite Hrow. cbn [str repr]. io_done.
Qed.

(** A dictionary returned by the calculator holds its four entries. *)
Lemma calculate_advanced_stats_entries self (b adv : gmap string Q) :
  calculate_advanced_stats self b = Ok adv ->
  exists ts usage ratio pps,
    adv !! "ts_pct" = Some ts /\ adv !! "usage_rate" = Some usage /\
    adv !! "ast_to_ratio" = Some ratio /\ adv !! "pts_per_shot" = Some pps.
Proof.
  run_calculator. repeat step_calculator; try discriminate;
    intros [= <-]; eexists _, _, _, _; read_result; repeat split.
Qed.

(** X20: when the calculator raises on the record of the first player
    found, a record that holds the ten columns of the table, the header
    and the table are printed and followed by "Error: " and the text of
    the exception: no derived statistic and no other player is shown.
    When the exception reports a missing key, the key is ["fga"], ["fta"]
    or ["turnover"], the three fields the calculator reads that are no
    column of the table. *)
Theorem display_calculator_exception self name season
    (player : Player.t) (rest : list Player.t)
    (stats : gmap string Q) (others : list (gmap string Q))
    (out : list event) (e : exn) :
  search_player (players_api env) self name = Ok (player :: rest) ->
  get_player_stats (season_averages_api env) self (Player.id player) season
  = Ok (stats :: others) ->
  (forall k, In k table_fields -> is_Some (stats !! k)) ->
  calculate_advanced_stats self stats = Raise e ->
  exists row, table_row env stats = Ok row /\
    display_player_stats env self name season out
    = (out ++ player_header player
           ++ [Line (PyStr.LF ++ "Season Averages:");
               Line (to_string env row);
               Line ("Error: " ++ str e)])%list /\
    forall k, e = Exception (missing_field_message k) ->
      In k ["fga"; "fta"; "turnover"] /\ stats !! k = None.
Proof.
  intros Hsearch Hget Hpres Hcalc.
  destruct (table_row_present stats Hpres) as [row Hrow].
  exists row. split; [exact Hrow | split].
  - unfold display_player_stats, display_player_stats_try, display_player.
    run_io. rewrite Hsearch. cbn [for_]. run_io. rewrite Hget.
    cbn [run]. rewrite Hrow. cbn [run]. rewrite Hcalc. io_done.
  - intros k ->.
    destruct (calculate_advanced_stats_outcome self stats)
      as [[adv Hok] | (k' & Hin & Hk & Hmsg)]; [congruence |].
    assert (k' = k) as ->.
    { apply missing_field_message_inj. congruence. }
    split; [| exact Hk].
    cbn in Hin. destruct Hin as [<- | [<- | [<- | [<- | [<- | [<- | []]]]]]];
      try (cbn; tauto);
      [destruct (Hpres "pts") as [x Hx] | destruct (Hpres "min") as [x Hx]
      | destruct (Hpres "ast") as [x Hx]];
      first [cbn; tauto | congruence].
Qed.

(** X21: for the one player found, with a record on which the table and
    the calculator succeed, the console receives the header of the player,
    the table, and the four derived statistics in the order "Ts Pct",
    "Usage Rate", "Ast To Ratio", "Pts Per Shot", each with its value
    formatted to two decimals; records after the first are not used. *)
Theorem display_complete self name season (player : Player.t)
    (stats : gmap string Q) (others : list (gmap string Q))
    (row : list (string * cell)) (adv : gmap string Q)
    (out : list event) :
  search_player (players_api env) self name = Ok [player] ->
  get_player_stats (season_averages_api env) self (Player.id player) season
  = Ok (stats :: others) ->
  table_row env stats = Ok row ->
  calculate_advanced_stats self stats = Ok adv ->
  exists ts usage ratio pps,
    adv !! "ts_pct" = Some ts /\ adv !! "usage_rate" = Some usage /\
    adv !! "ast_to_ratio" = Some ratio /\ adv !! "pts_per_shot" = Some pps /\
    display_player_stats env self name season out
    = (out ++ player_header player
           ++ [Line (PyStr.LF ++ "Season Averages:");
               Line (to_string env row);
               Line (PyStr.LF ++ "Advanced Statistics:");
               Line ("Ts Pct: " ++ format_2f env ts);
               Line ("Usage Rate: " ++ format_2f env usage);
               Line ("Ast To Ratio: " ++ format_2f env ratio);
               Line ("Pts Per Shot: " ++ format_2f env pps)])%list.
Proof.
  intros Hsearch Hget Hrow Hcalc.
  destruct (calculate_advanced_stats_entries self stats adv Hcalc)
    as (ts & usage & ratio & pps & Hts & Husage & Hratio & Hpps).
  exists ts, usage, ratio, pps. repeat (split; [assumption |]).
  unfold display_player_stats, display_player_stats_try, display_player.
  run_io. rewrite Hsearch. cbn [for_]. run_io. rewrite Hget.
  cbn [run]. rewrite Hrow. cbn [run]. rewrite Hcalc.
  unfold items, advanced_order. cbn [omap list_omap].
  rewrite Hts, Husage, Hratio, Hpps. cbn [fmap option_fmap option_map].
  cbn [run for_].
  change (PyStr.title (PyStr.replace "_" " " "ts_pct")) with "Ts Pct".
  change (PyStr.title (PyStr.replace "_" " " "usage_rate")) with "Usage Rate".
  change (PyStr.title (PyStr.replace "_" " " "ast_to_ratio"))
    with "Ast To Ratio".
  change (PyStr.title (PyStr.replace "_" " " "pts_per_shot"))
    with "Pts Per Shot".
  io_done.
Qed.

(** Without a season, a player is displayed as for the season stored in
    the analyzer, unless the API holds no statistics for this player. *)
Lemma display_player_default_season self (player : Player.t)
    (out : list event) :
  get_player_stats (season_averages_api env) self (Player.id player)
    (Some (current_season self)) <> Ok [] ->
  run (display_player env self None player) out
  = run (display_player env self (Some (current_season self)) player) out.
Proof.
  intros Hstats. unfold display_player.
  change (get_player_stats (season_averages_api env) self (Player.id player)
            None)
    with (get_player_stats (season_averages_api env) self (Player.id player)
            (Some (current_season self))).
  run_io.
  destruct (get_player_stats (season_averages_api env) self
              (Player.id player) (Some (current_season self)))
    as [[| stats others] | e]; [contradiction | reflexivity | reflexivity].
Qed.

(** X28: leaving the season out displays what giving the season stored in
    the analyzer displays, as long as the API holds statistics for every
    player found; the two differ only in the line "No statistics found for
    season ...". *)
Theorem display_default_season self name (players : list Player.t)
    (out : list event) :
  search_player (players_api env) self name = Ok players ->
  (forall player, In player players ->
     get_player_stats (season_averages_api env) self (Player.id player)
       (Some (current_season self)) <> Ok []) ->
  display_player_stats env self name None out
  = display_player_stats env self name (Some (current_season self)) out.
Proof.
  intros Hsearch Hstats.
  unfold display_player_stats, display_player_stats_try.
  unfold mbind, io_bind, lift. cbn [run]. rewrite Hsearch.
  destruct players as [| player players]; [reflexivity |].
  assert (Hloop : forall l out,
             (forall p, In p l -> In p (player :: players)) ->
             run (for_ l (display_player env self None)) out
             = run (for_ l (display_player env self
                              (Some (current_season self)))) out).
  { induction l as [| p l IH]; intros out' Hl; [reflexivity |].
    cbn [for_]. unfold mbind, io_bind. cbn [run].
    rewrite (display_player_default_season self p out')
      by (apply Hstats, Hl; now left).
    destruct (run (display_player env self (Some (current_season self)) p)
                out') as [[[] | e] out''];
      [| reflexivity].
    apply IH. intros q Hq. apply Hl. now right. }
  rewrite (Hloop (player :: players) out (fun p Hp => Hp)). reflexivity.
Qed.

(** X29: when every player found is displayed without an exception, the
    console receives the blocks of the players one after the other, in
    the order of the answer, each block being what the display of this
    player alone prints. *)
Theorem display_players_in_order self name season
    (player : Player.t) (players : list Player.t) (out : list event) :
  search_player (players_api env) self name = Ok (player :: players) ->
  (forall p, In p (player :: players) ->
     fst (run (display_player env self season p) []) = Ok tt) ->
  display_player_stats env self name season out
  = (out ++ concat (map (fun p =>
                           snd (run (display_player env self season p) []))
                        (player :: players)))%list.
Proof.
  intros Hsearch Hall.
  unfold display_player_stats, display_player_stats_try.
  unfold mbind, io_bind, lift. cbn [run]. rewrite Hsearch.
  assert (Hloop : forall l out,
             (forall p, In p l -> In p (player :: players)) ->
             run (for_ l (display_player env self season)) out
             = (Ok tt,
                (out ++ concat (map (fun p =>
                     snd (run (display_player env self season p) [])) l))%list)).
  { induction l as [| p l IH]; intros out' Hl.
    - cbn. now rewrite app_nil_r.
    - cbn [for_ map concat]. unfold mbind, io_bind. cbn [run].
      rewrite (appends_display_player self season p out').
      rewrite (Hall p) by (apply Hl; now left).
      rewrite IH by (intros q Hq; apply Hl; now right).
      now rewrite app_assoc. }
  rewrite (Hloop (player :: players) out (fun p Hp => Hp)). reflexivity.
Qed.

End DisplayProperties.

(** ** [main] *)

Section MainProperties.

Variable env : Env.

(** X22: when the first choice is "3", [main] prints the prompt for the
    key and the menu once and ends: nothing is asked of the API, no error
    is printed, and the lines that follow on the standard input are not
    read. *)
Theorem main_quit (key choice : string) (rest : list string) :
  strip env choice = "3" ->
  main env (key :: choice :: rest)
  = (Ask "Please enter your balldontlie API key: " :: menu)%list.
Proof.
  intros Hchoice. unfold main. cbn [main_loop]. rewrite Hchoice.
  reflexivity.
Qed.

(** X23: a choice other than "1", "2" and "3" still asks for a player
    name, then shows the menu again: the name is dropped, nothing is asked
    of the API and nothing is printed about the choice. *)
Theorem main_loop_unknown_choice (analyzer : NBAStatsAnalyzer)
    (choice name : string) (rest : list string) (out : list event) :
  strip env choice <> "1" -> strip env choice <> "2" ->
  strip env choice <> "3" ->
  main_loop env analyzer (choice :: name :: rest) out
  = main_loop env analyzer rest
      (out ++ menu ++ [Ask "Enter player name: "])%list.
Proof.
  intros H1 H2 H3. cbn [main_loop].
  apply String.eqb_neq in H1, H2, H3. rewrite H1, H2, H3.
  unfold menu. rewrite <- !app_assoc. reflexivity.
Qed.

(** X24: a season that is not empty and that [int] rejects ends the
    program: after the three prompts the line "Error: " with the message
    of the [ValueError] is printed, nothing is asked of the API, and the
    rest of the standard input is not read. *)
Theorem main_invalid_season (key choice name season : string)
    (rest : list string) (msg : string) :
  strip env choice = "1" ->
  strip env season <> "" ->
  int env (strip env season) = inl msg ->
  main env (key :: choice :: name :: season :: rest)
  = (Ask "Please enter your balldontlie API key: " :: menu
       ++ [Ask "Enter player name: ";
           Ask "Enter season year (press Enter for current season): ";
           Line ("Error: " ++ msg)])%list.
Proof.
  intros Hchoice Hseason Hint. unfold main. cbn [main_loop].
  rewrite Hchoice. cbn [String.eqb Ascii.eqb Bool.eqb].
  unfold season_of. apply String.eqb_neq in Hseason.
  rewrite Hseason, Hint. reflexivity.
Qed.

(** X25: the choice "2" does what the choice "1" does when the season is
    left empty: both display the player for the season stored in the
    analyzer, and differ by the prompt for the season only. *)
Theorem main_loop_choice_2 (analyzer : NBAStatsAnalyzer)
    (choice1 choice2 name season : string) (rest : list string)
    (out : list event) :
  strip env choice1 = "1" -> strip env choice2 = "2" ->
  strip env season = "" ->
  main_loop env analyzer (choice1 :: name :: season :: rest) out
  = main_loop env analyzer rest
      (display_player_stats env analyzer (strip env name) None
         (out ++ menu
              ++ [Ask "Enter player name: ";
                  Ask "Enter season year (press Enter for current season): "]))%list /\
  main_loop env analyzer (choice2 :: name :: rest) out
  = main_loop env analyzer rest
      (display_player_stats env analyzer (strip env name) None
         (out ++ menu ++ [Ask "Enter player name: "]))%list.
Proof.
  intros H1 H2 Hseason. split; cbn [main_loop].
  - rewrite H1. cbn [String.eqb Ascii.eqb Bool.eqb].
    unfold season_of. rewrite Hseason. cbn [String.eqb].
    unfold menu. rewrite <- !app_assoc. reflexivity.
  - rewrite H2. cbn [String.eqb Ascii.eqb Bool.eqb].
    unfold menu. rewrite <- !app_assoc. reflexivity.
Qed.

(** The loop of [main] is left by [break] when the choice of some turn
    reads "3", with the prompt for this choice as the last thing printed,
    and by an exception of [input] or [int] otherwise. *)
Lemma main_loop_outcome (analyzer : NBAStatsAnalyzer) (stdin : list string)
    (out : list event) :
  match main_loop env analyzer stdin out with
  | (None, out') =>
      In "3" (choices env stdin) /\
      exists shown,
        out' = (shown ++ [Ask (PyStr.LF ++ "Select an option (1-3): ")])%list
  | (Some e, _) => ~ In "3" (choices env stdin)
  end.
Proof.
  remember (length stdin) as n eqn:Hn. revert stdin out Hn.
  induction n as [n IH] using lt_wf_ind. intros stdin out Hn.
  destruct stdin as [| choice stdin]; cbn [main_loop choices]; [tauto |].
  destruct (String.eqb (strip env choice) "3") eqn:E3.
  { apply String.eqb_eq in E3. split; [left; exact E3 |].
    exists (out ++ [Line (PyStr.LF ++ "NBA Stats Analyzer");
                    Line "1. View Player Stats";
                    Line "2. Calculate Advanced Stats";
                    Line "3. Quit"])%list.
    rewrite <- app_assoc. reflexivity. }
  apply String.eqb_neq in E3.
  assert (Hnext : forall rest out1, (length rest < n)%nat ->
             match main_loop env analyzer rest out1 with
             | (None, out') =>
                 In "3" (strip env choice :: choices env rest) /\
                 exists shown,
                   out' = (shown
                           ++ [Ask (PyStr.LF ++ "Select an option (1-3): ")])%list
             | (Some e, _) => ~ In "3" (strip env choice :: choices env rest)
             end).
  { intros rest out1 Hlen.
    pose proof (IH (length rest) Hlen rest out1 eq_refl) as Hrest.
    destruct (main_loop env analyzer rest out1) as [[e |] out'].
    - intros [Heq | Hin]; [now apply E3 | now apply Hrest].
    - destruct Hrest as [Hin Hshown]. split; [now right | exact Hshown]. }
  assert (Hstop : ~ In "3" [strip env choice]).
  { intros [Heq | []]. now apply E3. }
  destruct stdin as [| name stdin]; [exact Hstop |].
  destruct (String.eqb (strip env choice) "1").
  - destruct stdin as [| season stdin]; [exact Hstop |].
    destruct (season_of env (strip env season)); [exact Hstop |].
    apply Hnext. cbn in Hn. lia.
  - destruct (String.eqb (strip env choice) "2");
      apply Hnext; cbn in Hn; lia.
Qed.

(** X26: [main] ends without an error only through the choice "3".  On
    every standard input, either the choice read at some turn of the loop
    is "3", and the last thing [main] does is to ask for this choice, or
    no choice read is "3", whatever the key, the player names and the
    seasons are, and the last thing [main] prints is a line "Error: ..."
    with the text of the [EOFError] of [input] or of the [ValueError] of
    [int]. *)
Theorem main_ends_by_choice (stdin : list string) :
  (In "3" (choices env (tail stdin)) /\
   exists shown,
     main env stdin
     = (shown ++ [Ask (PyStr.LF ++ "Select an option (1-3): ")])%list) \/
  (~ In "3" (choices env (tail stdin)) /\
   exists (shown : list event) (e : input_error),
     main env stdin
     = (shown ++ [Line ("Error: " ++ str_input_error e)])%list).
Proof.
  unfold main. destruct stdin as [| key stdin]; cbn [tail].
  { right. split; [intros [] |].
    now exists [Ask "Please enter your balldontlie API key: "], EOFError. }
  pose proof (main_loop_outcome (__init__ (strip env key) (now_year env))
                stdin [Ask "Please enter your balldontlie API key: "])
    as Hloop.
  destruct (main_loop env (__init__ (strip env key) (now_year env)) stdin
              [Ask "Please enter your balldontlie API key: "])
    as [[e |] out].
  - right. split; [exact Hloop | now exists out, e].
  - left. exact Hloop.
Qed.

End MainProperties.

(** ** The properties on the sample world *)

Lemma search_player_request_witness :
  search_player (Demo.search_net 500) (__init__ "secret" 2024) "LeBron"
  = search_player (Demo.search_net 404) (__init__ "secret" 2031) "LeBron".
Proof.
  apply (search_player_request unit (Demo.search_net 500)
           (Demo.search_net 404) "secret" "LeBron" 2024 2031).
  reflexivity.
Defined.

Lemma get_player_stats_request_witness :
  get_player_stats (Demo.averages_net 500) Sample.analyzer 237 None
  = get_player_stats (Demo.averages_net 404) Sample.analyzer 237
      (Some (current_season Sample.analyzer)).
Proof.
  apply (get_player_stats_request unit (Demo.averages_net 500)
           (Demo.averages_net 404) Sample.analyzer 237).
  reflexivity.
Defined.

Lemma get_player_stats_status_error_witness :
  get_player_stats (season_averages_api (Demo.env [] [])) Sample.analyzer
    115 (Some 2023%Z)
  = Raise (Exception ("Failed to get player stats. Status code: "
                      ++ pretty 500%Z)).
Proof.
  apply (get_player_stats_status_error (list (gmap string Q))
           (season_averages_api (Demo.env [] [])) Sample.analyzer 115 2023
           {| status_code := 500; json := Ok ∅ |});
    [reflexivity | discriminate].
Defined.

Lemma calculate_advanced_stats_keys_witness :
  dom Sample.bench_advanced = advanced_fields.
Proof.
  apply (calculate_advanced_stats_keys Sample.analyzer
           Sample.bench_without_pts Sample.bench_advanced).
  reflexivity.
Defined.


Lemma display_no_players_witness :
  display_player_stats (Demo.env [] []) Sample.analyzer "Nobody" None []
  = [Line "No players found matching 'Nobody'"].
Proof.
  apply (display_no_players (Demo.env [] []) Sample.analyzer "Nobody" None []).
  reflexivity.
Defined.

Lemma display_search_error_witness :
  display_player_stats Demo.offline Sample.analyzer "LeBron" None []
  = [Line "Error: API request failed: Connection refused"].
Proof.
  apply (display_search_error Demo.offline Sample.analyzer "LeBron" None []
           (Exception "API request failed: Connection refused")).
  reflexivity.
Defined.

Lemma display_stops_at_first_failure_witness :
  display_player_stats
    (Demo.env [Demo.lebron; Demo.curry; Demo.lebron] [Sample.season])
    Sample.analyzer "e" None []
  = (snd (run (display_player
                 (Demo.env [Demo.lebron; Demo.curry; Demo.lebron]
                    [Sample.season])
                 Sample.analyzer None Demo.lebron) [])
     ++ [Line "Error: Failed to get player stats. Status code: 500"])%list.
Proof.
  apply (display_stops_at_first_failure
           (Demo.env [Demo.lebron; Demo.curry; Demo.lebron] [Sample.season])
           Sample.analyzer "e" None
           [Demo.lebron] Demo.curry [Demo.lebron] []
           (snd (run (display_player
                        (Demo.env [Demo.lebron; Demo.curry; Demo.lebron]
                           [Sample.season])
                        Sample.analyzer None Demo.lebron) []))
           (snd (run (display_player
                        (Demo.env [Demo.lebron; Demo.curry; Demo.lebron]
                           [Sample.season])
                        Sample.analyzer None Demo.lebron) []))
           (Exception "Failed to get player stats. Status code: 500"));
    vm_compute; reflexivity.
Defined.

Lemma display_stats_error_witness :
  display_player_stats (Demo.env [Demo.curry; Demo.lebron] [Sample.season])
    Sample.analyzer "e" None []
  = [Line "Error: Failed to get player stats. Status code: 500"].
Proof.
  apply (display_stats_error
           (Demo.env [Demo.curry; Demo.lebron] [Sample.season])
           Sample.analyzer "e" None Demo.curry [Demo.lebron] []
           (Exception "Failed to get player stats. Status code: 500"));
    reflexivity.
Defined.

Lemma display_no_statistics_witness :
  display_player_stats (Demo.env [Demo.lebron] []) Sample.analyzer
    "LeBron" None []
  = (player_header Demo.lebron
       ++ [Line "No statistics found for season None"])%list.
Proof.
  apply (display_no_statistics (Demo.env [Demo.lebron] []) Sample.analyzer
           "LeBron" None Demo.lebron []);
    reflexivity.
Defined.

Lemma display_missing_column_witness :
  exists k, In k table_fields /\ delete "reb" Sample.season !! k = None /\
    display_player_stats
      (Demo.env [Demo.lebron] [delete "reb" Sample.season])
      Sample.analyzer "LeBron" None []
    = (player_header Demo.lebron ++ [Line ("Error: '" ++ k ++ "'")])%list.
Proof.
  apply (display_missing_column
           (Demo.env [Demo.lebron] [delete "reb" Sample.season])
           Sample.analyzer "LeBron" None Demo.lebron []
           (delete "reb" Sample.season) [] [] "reb");
    [reflexivity | reflexivity | cbn; tauto | reflexivity].
Defined.

Lemma display_calculator_exception_witness :
  exists row,
    table_row (Demo.env [Demo.lebron] [Demo.no_attempts]) Demo.no_attempts
    = Ok row /\
    display_player_stats (Demo.env [Demo.lebron] [Demo.no_attempts])
      Sample.analyzer "LeBron" None []
    = ([] ++ player_header Demo.lebron
         ++ [Line (PyStr.LF ++ "Season Averages:");
             Line (to_string (Demo.env [Demo.lebron] [Demo.no_attempts]) row);
             Line ("Error: "
                   ++ str (Exception "Missing required statistics: 'fga'"))])%list /\
    forall k,
      Exception "Missing required statistics: 'fga'"
      = Exception (missing_field_message k) ->
      In k ["fga"; "fta"; "turnover"] /\ Demo.no_attempts !! k = None.
Proof.
  apply (display_calculator_exception
           (Demo.env [Demo.lebron] [Demo.no_attempts])
           Sample.analyzer "LeBron" None Demo.lebron []
           Demo.no_attempts [] []
           (Exception "Missing required statistics: 'fga'"));
    [reflexivity | reflexivity | | reflexivity].
  intros k Hk. cbn in Hk.
  repeat (destruct Hk as [<- | Hk]; [eexists; reflexivity |]).
  contradiction.
Defined.

Lemma display_complete_witness :
  exists ts usage ratio pps,
    Demo.season_advanced !! "ts_pct" = Some ts /\
    Demo.season_advanced !! "usage_rate" = Some usage /\
    Demo.season_advanced !! "ast_to_ratio" = Some ratio /\
    Demo.season_advanced !! "pts_per_shot" = Some pps /\
    display_player_stats (Demo.env [Demo.lebron] [Sample.season])
      Sample.analyzer "LeBron" None []
    = (player_header Demo.lebron
         ++ [Line (PyStr.LF ++ "Season Averages:");
             Line (Demo.two_lines Demo.season_row);
             Line (PyStr.LF ++ "Advanced Statistics:");
             Line ("Ts Pct: " ++ Demo.decimal 2 ts);
             Line ("Usage Rate: " ++ Demo.decimal 2 usage);
             Line ("Ast To Ratio: " ++ Demo.decimal 2 ratio);
             Line ("Pts Per Shot: " ++ Demo.decimal 2 pps)])%list.
Proof.
  apply (display_complete (Demo.env [Demo.lebron] [Sample.season])
           Sample.analyzer "LeBron" None Demo.lebron Sample.season []
           Demo.season_row Demo.season_advanced []);
    vm_compute; reflexivity.
Defined.

Lemma main_quit_witness :
  main Demo.offline ["secret"; " 3"; "never read"]
  = (Ask "Please enter your balldontlie API key: " :: menu)%list.
Proof.
  apply (main_quit Demo.offline "secret" " 3" ["never read"]). reflexivity.
Defined.

Lemma main_loop_unknown_choice_witness :
  main_loop Demo.offline Sample.analyzer ["9"; "LeBron"; "3"] []
  = main_loop Demo.offline Sample.analyzer ["3"]
      ([] ++ menu ++ [Ask "Enter player name: "])%list.
Proof.
  apply (main_loop_unknown_choice Demo.offline Sample.analyzer
           "9" "LeBron" ["3"] []);
    discriminate.
Defined.

Lemma main_invalid_season_witness :
  main Demo.offline ["secret"; "1"; "LeBron"; "soon"; "3"]
  = (Ask "Please enter your balldontlie API key: " :: menu
       ++ [Ask "Enter player name: ";
           Ask "Enter season year (press Enter for current season): ";
           Line ("Error: "
                 ++ "invalid literal for int() with base 10: 'soon'")])%list.
Proof.
  apply (main_invalid_season Demo.offline "secret" "1" "LeBron" "soon" ["3"]
           "invalid literal for int() with base 10: 'soon'");
    [reflexivity | discriminate | reflexivity].
Defined.

Lemma main_loop_choice_2_witness :
  main_loop Demo.offline Sample.analyzer ["1"; "LeBron"; ""; "3"] []
  = main_loop Demo.offline Sample.analyzer ["3"]
      (display_player_stats Demo.offline Sample.analyzer "LeBron" None
         ([] ++ menu
             ++ [Ask "Enter player name: ";
                 Ask "Enter season year (press Enter for current season): "]))%list /\
  main_loop Demo.offline Sample.analyzer ["2"; "LeBron"; "3"] []
  = main_loop Demo.offline Sample.analyzer ["3"]
      (display_player_stats Demo.offline Sample.analyzer "LeBron" None
         ([] ++ menu ++ [Ask "Enter player name: "]))%list.
Proof.
  apply (main_loop_choice_2 Demo.offline Sample.analyzer
           "1" "2" "LeBron" "" ["3"] []);
    reflexivity.
Defined.

(** On a standard input whose key and player name read "3" and whose
    choices do not, [main] ends on the [EOFError]. *)
Lemma main_reads_3_outside_choices :
  main Demo.offline ["3"; "2"; "3"]
  = (Ask "Please enter your balldontlie API key: " :: menu
       ++ [Ask "Enter player name: ";
           Line "Error: API request failed: Connection refused"]
       ++ menu ++ [Line "Error: EOF when reading a line"])%list /\
  choices Demo.offline ["2"; "3"] = ["2"].
Proof. split; reflexivity. Qed.

Lemma display_default_season_witness :
  display_player_stats (Demo.env [Demo.lebron; Demo.curry] [Sample.season])
    Sample.analyzer "e" None []
  = display_player_stats (Demo.env [Demo.lebron; Demo.curry] [Sample.season])
      Sample.analyzer "e" (Some (current_season Sample.analyzer)) [].
Proof.
  apply (display_default_season
           (Demo.env [Demo.lebron; Demo.curry] [Sample.season])
           Sample.analyzer "e" [Demo.lebron; Demo.curry] []).
  - reflexivity.
  - intros player [<- | [<- | []]]; discriminate.
Defined.

Lemma display_players_in_order_witness :
  display_player_stats (Demo.env [Demo.lebron; Demo.lebron] [Sample.season])
    Sample.analyzer "e" None []
  = ([] ++ concat
       (map (fun p =>
               snd (run (display_player
                           (Demo.env [Demo.lebron; Demo.lebron]
                              [Sample.season])
                           Sample.analyzer None p) []))
          [Demo.lebron; Demo.lebron]))%list.
Proof.
  apply (display_players_in_order
           (Demo.env [Demo.lebron; Demo.lebron] [Sample.season])
           Sample.analyzer "e" None Demo.lebron [Demo.lebron] []).
  - reflexivity.
  - intros p [<- | [<- | []]]; vm_compute; reflexivity.
Defined.
